(** * The transformation engine of transformer.py

    A shallow embedding of the typed-value model, the five transform
    operators and the stage loop of [main] in src/transformer.py, with the
    properties stated about them.

    Conventions of the embedding.
    - Text is ASCII: a Python [str] is a Rocq [string]; characters above
      127 are neither digits, letters nor white space.
    - A Python [int] is a [Z] (the interpreter's optional limit on the
      number of digits of a text conversion is not modelled); a Python
      [float] is an IEEE 754 binary64 value, a [spec_float] of the
      standard library with its arithmetic.  How a float is read from and
      written as text is an interface, [FloatText]: the properties hold for
      every implementation of it, and [binary64_text] is one that runs.
    - A Value is one of the four kinds of the data model (Integer, Float,
      String, Null); JSON booleans, arrays and objects are outside it.  A
      Record is a Python [dict] with string keys, kept as an association
      list in insertion order; a Dataset is a list of Records.
    - Exceptions are explicit: a computation that can raise returns a
      [result].  Log output is not modelled.
    - [list.sort] is modelled by what it is specified to be, a stable sort
      that compares with [<] only; this determines its result whenever
      [<] orders the keys consistently, which it does for all keys but a
      float NaN. *)

From Stdlib Require Import ZArith Bool List String Ascii Lia Permutation Sorted.
From Stdlib Require Import DecimalString.
From Stdlib Require Import Floats.SpecFloat.
Import ListNotations.

Open Scope string_scope.
Open Scope Z_scope.

(** ** Exceptions *)

Inductive exn : Type := TypeError | ValueError | OverflowError.

Inductive result (A : Type) : Type :=
| Ok (a : A)
| Raise (e : exn).

Arguments Ok {A} a.
Arguments Raise {A} e.

Definition bind {A B : Type} (m : result A) (k : A -> result B) : result B :=
  match m with
  | Ok a => k a
  | Raise e => Raise e
  end.

Notation "x <- m ;; k" := (bind m (fun x => k))
  (at level 61, m at next level, right associativity).

(** ** Python [str] methods used by the source, on ASCII text *)

Definition ascii_code (c : ascii) : N := N_of_ascii c.

(** [c.isdigit()] *)
Definition isdigit (c : ascii) : bool :=
  (48 <=? ascii_code c)%N && (ascii_code c <=? 57)%N.

Definition isupper (c : ascii) : bool :=
  (65 <=? ascii_code c)%N && (ascii_code c <=? 90)%N.

Definition islower (c : ascii) : bool :=
  (97 <=? ascii_code c)%N && (ascii_code c <=? 122)%N.

Definition isalnum_char (c : ascii) : bool :=
  isdigit c || isupper c || islower c.

(** White space as [str.strip()] sees it: TAB, LF, VT, FF, CR, the four
    separators 0x1c-0x1f and the space. *)
Definition isspace (c : ascii) : bool :=
  ((9 <=? ascii_code c)%N && (ascii_code c <=? 13)%N)
  || ((28 <=? ascii_code c)%N && (ascii_code c <=? 32)%N).

Fixpoint forallb_str (p : ascii -> bool) (s : string) : bool :=
  match s with
  | EmptyString => true
  | String c s' => p c && forallb_str p s'
  end.

Fixpoint existsb_str (p : ascii -> bool) (s : string) : bool :=
  match s with
  | EmptyString => false
  | String c s' => p c || existsb_str p s'
  end.

(** [c in s] for a one-character [c] *)
Definition has_char (c : ascii) (s : string) : bool :=
  existsb_str (Ascii.eqb c) s.

(** [s.isalnum()]: every character alphanumeric and at least one character *)
Definition isalnum (s : string) : bool :=
  match s with
  | EmptyString => false
  | _ => forallb_str isalnum_char s
  end.

Definition lower_char (c : ascii) : ascii :=
  if isupper c then ascii_of_N (ascii_code c + 32) else c.

(** [s.lower()] *)
Fixpoint lower (s : string) : string :=
  match s with
  | EmptyString => EmptyString
  | String c s' => String (lower_char c) (lower s')
  end.

Fixpoint lstrip (s : string) : string :=
  match s with
  | EmptyString => EmptyString
  | String c s' => if isspace c then lstrip s' else s
  end.

(** [rstrip] keeps a character when it is not white space or when
    something remains after it. *)
Fixpoint rstrip (s : string) : string :=
  match s with
  | EmptyString => EmptyString
  | String c s' =>
      match rstrip s' with
      | EmptyString => if isspace c then EmptyString else String c EmptyString
      | t => String c t
      end
  end.

(** [s.strip()] *)
Definition strip (s : string) : string := rstrip (lstrip s).

(** [s.startswith(p)] *)
Fixpoint startswith (p s : string) : bool :=
  match p, s with
  | EmptyString, _ => true
  | String a p', String b s' => Ascii.eqb a b && startswith p' s'
  | String _ _, EmptyString => false
  end.

Fixpoint rev_str (acc s : string) : string :=
  match s with
  | EmptyString => acc
  | String c s' => rev_str (String c acc) s'
  end.

(** [s.endswith(p)] *)
Definition endswith (p s : string) : bool :=
  startswith (rev_str "" p) (rev_str "" s).

(** [p in s] *)
Fixpoint contains (p s : string) : bool :=
  startswith p s ||
  match s with
  | EmptyString => false
  | String _ s' => contains p s'
  end.

(** The text before the first [sep], and the text after it when there is
    one. *)
Fixpoint cut (sep : ascii) (s : string) : string * option string :=
  match s with
  | EmptyString => (EmptyString, None)
  | String c s' =>
      if Ascii.eqb c sep then (EmptyString, Some s')
      else let (a, b) := cut sep s' in (String c a, b)
  end.

(** [s.split(sep)] for a one-character [sep]: never the empty list. *)
Fixpoint split (sep : ascii) (s : string) : list string :=
  match s with
  | EmptyString => [EmptyString]
  | String c s' =>
      if Ascii.eqb c sep then EmptyString :: split sep s'
      else match split sep s' with
           | [] => [String c EmptyString]
           | w :: ws => String c w :: ws
           end
  end.

(** [s.split(sep, n)]: at most [n] cuts, the rest is left whole. *)
Fixpoint split_max (sep : ascii) (n : nat) (s : string) : list string :=
  match n with
  | O => [s]
  | S n' =>
      match cut sep s with
      | (a, None) => [a]
      | (a, Some b) => a :: split_max sep n' b
      end
  end.

(** [s[1:-1]] *)
Definition slice_1_m1 (s : string) : string :=
  match s with
  | EmptyString => EmptyString
  | String _ s' => rev_str "" (match rev_str "" s' with
                               | EmptyString => EmptyString
                               | String _ t => t
                               end)
  end.

(** ** Values *)

(** binary64 *)
Definition prec : Z := 53.
Definition emax : Z := 1024.

Inductive Value : Type :=
| VInt (z : Z)
| VFloat (f : spec_float)
| VStr (s : string)
| VNull.

(** [isinstance(v, (int, float))] *)
Definition is_numeric (v : Value) : bool :=
  match v with
  | VInt _ | VFloat _ => true
  | _ => false
  end.

(** [isinstance(v, str)] *)
Definition is_str (v : Value) : bool :=
  match v with
  | VStr _ => true
  | _ => false
  end.

(** *** Comparison of numbers

    Python compares an int with a float, and two floats, by their exact
    values; a NaN is unordered with everything. *)

Definition Z_to_SF (z : Z) : spec_float :=
  match z with
  | Z0 => S754_zero false
  | Zpos p => S754_finite false p 0
  | Zneg p => S754_finite true p 0
  end.

(** A finite float as (signed mantissa, binary exponent) *)
Definition SF_finite_parts (f : spec_float) : Z * Z :=
  match f with
  | S754_finite s m e => (if s then Zneg m else Zpos m, e)
  | _ => (0, 0)
  end.

Definition exact_compare (f1 f2 : spec_float) : option comparison :=
  match f1, f2 with
  | S754_nan, _ | _, S754_nan => None
  | S754_infinity s1, S754_infinity s2 =>
      Some (if s1 then (if s2 then Eq else Lt) else (if s2 then Gt else Eq))
  | S754_infinity s, _ => Some (if s then Lt else Gt)
  | _, S754_infinity s => Some (if s then Gt else Lt)
  | _, _ =>
      let (m1, e1) := SF_finite_parts f1 in
      let (m2, e2) := SF_finite_parts f2 in
      let e := Z.min e1 e2 in
      Some (Z.compare (m1 * 2 ^ (e1 - e)) (m2 * 2 ^ (e2 - e)))
  end.

Definition num_of (v : Value) : option spec_float :=
  match v with
  | VInt z => Some (Z_to_SF z)
  | VFloat f => Some f
  | _ => None
  end.

(** The three-way comparison behind [<], [<=], [>], [>=]: [Raise TypeError]
    when the two kinds have no native ordering, [Ok None] when a NaN makes
    the pair unordered. *)
Definition py_compare (a b : Value) : result (option comparison) :=
  match a, b with
  | VStr s, VStr t => Ok (Some (String.compare s t))
  | _, _ =>
      match num_of a, num_of b with
      | Some x, Some y => Ok (exact_compare x y)
      | _, _ => Raise TypeError
      end
  end.

Definition py_lt (a b : Value) : result bool :=
  c <- py_compare a b ;;
  Ok (match c with Some Lt => true | _ => false end).

Definition py_gt (a b : Value) : result bool :=
  c <- py_compare a b ;;
  Ok (match c with Some Gt => true | _ => false end).

Definition py_le (a b : Value) : result bool :=
  c <- py_compare a b ;;
  Ok (match c with Some Lt | Some Eq => true | _ => false end).

Definition py_ge (a b : Value) : result bool :=
  c <- py_compare a b ;;
  Ok (match c with Some Gt | Some Eq => true | _ => false end).

(** [a == b]: never raises; values of unrelated kinds are unequal. *)
Definition py_eq (a b : Value) : bool :=
  match a, b with
  | VStr s, VStr t => String.eqb s t
  | VNull, VNull => true
  | _, _ =>
      match num_of a, num_of b with
      | Some x, Some y =>
          match exact_compare x y with Some Eq => true | _ => false end
      | _, _ => false
      end
  end.

(** [a != b] *)
Definition py_ne (a b : Value) : bool := negb (py_eq a b).

(** *** Arithmetic on numbers *)

(** Conversion of an int operand to float: correctly rounded, and an
    [OverflowError] when the int is too large. *)
Definition int_to_float (z : Z) : result spec_float :=
  match binary_normalize prec emax z 0 false with
  | S754_infinity _ => Raise OverflowError
  | f => Ok f
  end.

Inductive arith_op : Type := OpMul | OpAdd.

Definition int_op (op : arith_op) (a b : Z) : Z :=
  match op with OpMul => a * b | OpAdd => a + b end.

Definition float_op (op : arith_op) (x y : spec_float) : spec_float :=
  match op with
  | OpMul => SFmul prec emax x y
  | OpAdd => SFadd prec emax x y
  end.

(** [a * b] and [a + b] for two numbers: int with int stays int, a float
    operand makes the other one a float first. *)
Definition py_arith (op : arith_op) (a b : Value) : result Value :=
  match a, b with
  | VInt x, VInt y => Ok (VInt (int_op op x y))
  | VInt x, VFloat g => f <- int_to_float x ;; Ok (VFloat (float_op op f g))
  | VFloat f, VInt y => g <- int_to_float y ;; Ok (VFloat (float_op op f g))
  | VFloat f, VFloat g => Ok (VFloat (float_op op f g))
  | _, _ => Raise TypeError
  end.

(** ** Text conversions of the Python runtime *)

(** [int(s)] in base 10: optional white space around, an optional sign,
    digits with single underscores between them.  [None] is a
    [ValueError]. *)

Definition digit_or_underscore (c : ascii) : bool :=
  isdigit c || Ascii.eqb c "_".

(** The longest prefix of digits and underscores, and the rest. *)
Fixpoint span_digitpart (s : string) : string * string :=
  match s with
  | EmptyString => (EmptyString, EmptyString)
  | String c s' =>
      if digit_or_underscore c
      then let (a, b) := span_digitpart s' in (String c a, b)
      else (EmptyString, s)
  end.

(** digit ("_"? digit)* *)
Fixpoint valid_digitpart_from (after_digit : bool) (s : string) : bool :=
  match s with
  | EmptyString => after_digit
  | String c s' =>
      if isdigit c then valid_digitpart_from true s'
      else after_digit && valid_digitpart_from false s'
  end.

Definition valid_digitpart (s : string) : bool :=
  forallb_str digit_or_underscore s && valid_digitpart_from false s.

Definition digit_value (c : ascii) : Z := Z.of_N (ascii_code c) - 48.

(** Value of the digits of [s], underscores skipped, and their number. *)
Fixpoint digits_value (acc : Z) (n : Z) (s : string) : Z * Z :=
  match s with
  | EmptyString => (acc, n)
  | String c s' =>
      if isdigit c then digits_value (10 * acc + digit_value c) (n + 1) s'
      else digits_value acc n s'
  end.

Definition split_sign (s : string) : bool * string :=
  match s with
  | String "-" s' => (true, s')
  | String "+" s' => (false, s')
  | _ => (false, s)
  end.

Definition int_of_str (s : string) : option Z :=
  let (neg, body) := split_sign (strip s) in
  if valid_digitpart body
  then let (m, _) := digits_value 0 0 body in Some (if neg then - m else m)
  else None.

(** [str(z)] *)
Definition str_of_int (z : Z) : string :=
  NilZero.string_of_int (Z.to_int z).

(** [float(s)] and [repr(x)] of a float are taken as an interface of the
    runtime: the engine only calls them.  [None] is a [ValueError]. *)
Class FloatText : Type := {
  float_of_str : string -> option spec_float;
  str_of_float : spec_float -> string
}.

Section Engine.

Context {FT : FloatText}.

(** [str(v)] *)
Definition py_str (v : Value) : string :=
  match v with
  | VInt z => str_of_int z
  | VFloat f => str_of_float f
  | VStr s => s
  | VNull => "None"
  end.

(** ** Coercion: [_try_convert_type] *)

Definition _try_convert_type (value : Value) : Value :=
  if is_numeric value then value
  else if negb (is_str value) then value
  else
    match value with
    | VStr s =>
        match int_of_str s with
        | Some z => VInt z
        | None =>
            match float_of_str s with
            | Some f => VFloat f
            | None => value
            end
        end
    | _ => value
    end.

(** ** Records and Datasets *)

Definition Record : Type := list (string * Value).
Definition Dataset : Type := list Record.

(** [row[k]] when [k in row] *)
Fixpoint dict_get (k : string) (row : Record) : option Value :=
  match row with
  | [] => None
  | (k', v) :: row' => if String.eqb k k' then Some v else dict_get k row'
  end.

(** [k in row] *)
Definition dict_mem (k : string) (row : Record) : bool :=
  match dict_get k row with Some _ => true | None => false end.

(** [row.get(k)]: the value, [None] when the key is missing *)
Definition row_get (k : string) (row : Record) : Value :=
  match dict_get k row with Some v => v | None => VNull end.

(** [row[k] = v]: an existing key keeps its slot, a new key goes last *)
Fixpoint dict_set {V : Type} (k : string) (v : V) (row : list (string * V)) :
    list (string * V) :=
  match row with
  | [] => [(k, v)]
  | (k', v') :: row' =>
      if String.eqb k k' then (k', v) :: row'
      else (k', v') :: dict_set k v row'
  end.

(** [row.pop(k)], the dict that remains *)
Fixpoint dict_remove (k : string) (row : Record) : Record :=
  match row with
  | [] => []
  | (k', v') :: row' =>
      if String.eqb k k' then row' else (k', v') :: dict_remove k row'
  end.

(** Slot of a key in the field order *)
Fixpoint dict_index (k : string) (row : Record) : option nat :=
  match row with
  | [] => None
  | (k', _) :: row' =>
      if String.eqb k k' then Some O
      else option_map S (dict_index k row')
  end.

(** [_preprocess_data_types] *)
Definition _preprocess_data_types (data : Dataset) : Dataset :=
  match data with
  | [] => []
  | _ =>
      map (fun row =>
             fold_left (fun acc kv => dict_set (fst kv) (_try_convert_type (snd kv)) acc)
                       row [])
          data
  end.

(** ** Select: [transform_select_columns] *)

Definition select_row (columns_to_keep : list string) (original_row : Record) : Record :=
  fold_left (fun new_row col =>
               match dict_get col original_row with
               | Some v => dict_set col v new_row
               | None => new_row
               end)
            columns_to_keep [].

Definition transform_select_columns (data : Dataset) (columns_to_keep : list string) : Dataset :=
  match data with
  | [] => []
  | _ =>
      match columns_to_keep with
      | [] => data
      | _ =>
          filter (fun new_row => match new_row with [] => false | _ => true end)
                 (map (select_row columns_to_keep) data)
      end
  end.

(** ** Filter: [transform_filter_rows] *)

(** [c and m]: the right operand is evaluated only when [c] holds *)
Definition and_then (c : bool) (m : result bool) : result bool :=
  if c then m else Ok false.

(** One arm of the [if]/[elif] chain: take it when its condition holds,
    go on with the rest of the chain otherwise. *)
Definition elif (cond : result bool) (rest : result bool) : result bool :=
  b <- cond ;; if b then Ok true else rest.

(** The body of the [try]: the value [match] ends with *)
Definition filter_test (operator : string) (actual comp_value : Value) : result bool :=
  elif (and_then (String.eqb operator ">") (py_gt actual comp_value))
  (elif (and_then (String.eqb operator "<") (py_lt actual comp_value))
  (elif (and_then (String.eqb operator ">=") (py_ge actual comp_value))
  (elif (and_then (String.eqb operator "<=") (py_le actual comp_value))
  (elif (and_then (String.eqb operator "==") (Ok (py_eq actual comp_value)))
  (elif (and_then (String.eqb operator "!=") (Ok (py_ne actual comp_value)))
  (elif (and_then (String.eqb operator "contains")
           (match actual, comp_value with
            | VStr a, VStr c => Ok (contains c a)
            | _, _ => Ok false
            end))
  (elif (and_then (String.eqb operator "startswith")
           (match actual, comp_value with
            | VStr a, VStr c => Ok (startswith c a)
            | _, _ => Ok false
            end))
  (elif (and_then (String.eqb operator "endswith")
           (match actual, comp_value with
            | VStr a, VStr c => Ok (endswith c a)
            | _, _ => Ok false
            end))
  (Ok false))))))))).

(** One turn of the loop: does the row go to [filtered_data]? *)
Definition filter_match (column_name operator : string) (comp_value : Value)
    (row : Record) : bool :=
  match dict_get column_name row with
  | None => false
  | Some actual_value_in_row =>
      match filter_test operator actual_value_in_row comp_value with
      | Ok m => m
      | Raise _ => false
      end
  end.

(** [value_to_compare] is the text of the literal, as [main] passes it. *)
Definition transform_filter_rows (data : Dataset) (column_name operator : string)
    (value_to_compare : string) : Dataset :=
  match data with
  | [] => []
  | _ =>
      let comp_value := _try_convert_type (VStr value_to_compare) in
      filter (filter_match column_name operator comp_value) data
  end.

(** ** Rename: [transform_rename_columns] *)

(** [if old_name in new_row: new_row[new_name] = new_row.pop(old_name)] *)
Definition rename_pair (new_row : Record) (pair : string * string) : Record :=
  let (old_name, new_name) := pair in
  match dict_get old_name new_row with
  | Some v => dict_set new_name v (dict_remove old_name new_row)
  | None => new_row
  end.

Definition rename_row (rename_map : list (string * string)) (original_row : Record) : Record :=
  fold_left rename_pair rename_map original_row.

Definition transform_rename_columns (data : Dataset) (rename_map : list (string * string)) : Dataset :=
  match data, rename_map with
  | [], _ => data
  | _, [] => data
  | _, _ => map (rename_row rename_map) data
  end.

(** ** Sort: [transform_sort_data] *)

(** The key of the [lambda]: [(row.get(c) is None, row.get(c))] *)
Definition sort_key (column_name : string) (row : Record) : bool * Value :=
  (match row_get column_name row with VNull => true | _ => false end,
   row_get column_name row).


(** [k1 < k2] on two key tuples: the first components that differ decide *)
Definition key_lt (k1 k2 : bool * Value) : result bool :=
  if negb (Bool.eqb (fst k1) (fst k2)) then Ok (negb (fst k1) && fst k2)
  else if negb (py_eq (snd k1) (snd k2)) then py_lt (snd k1) (snd k2)
  else Ok false.

Section ListSort.

Variable A : Type.
Variable lt : A -> A -> result bool.

(** [x] goes in front of the first element that is not smaller than it *)
Fixpoint insert_sorted (x : A) (l : list A) : result (list A) :=
  match l with
  | [] => Ok [x]
  | y :: l' =>
      b <- lt y x ;;
      if b then (r <- insert_sorted x l' ;; Ok (y :: r))
      else Ok (x :: l)
  end.

(** A stable sort that only asks [<], as [list.sort] is specified; an
    exception of a comparison ends it.  (A list of keys with two values
    that [<] cannot compare makes every sorting algorithm ask for that
    comparison, so the sort raises here exactly when [list.sort] does.) *)
Fixpoint stable_sort (l : list A) : result (list A) :=
  match l with
  | [] => Ok []
  | x :: l' => s <- stable_sort l' ;; insert_sorted x s
  end.

(** [l.sort(reverse=r)]: a reverse sort reverses, sorts and reverses
    again, which keeps equal elements in their first order. *)
Definition list_sort (reverse : bool) (l : list A) : result (list A) :=
  if reverse then (s <- stable_sort (rev l) ;; Ok (rev s))
  else stable_sort l.

End ListSort.

Arguments insert_sorted {A} lt x l.
Arguments stable_sort {A} lt l.
Arguments list_sort {A} lt reverse l.

Definition row_lt (column_name : string) (r1 r2 : Record) : result bool :=
  key_lt (sort_key column_name r1) (sort_key column_name r2).

(** One turn of the loop over [reversed(sort_keys)]; a key is a pair, so
    the test [len(key_info) != 2] never holds. *)
Definition sort_pass (current_data : Dataset) (key_info : string * string) : result Dataset :=
  let (column_name, order) := key_info in
  let reverse_order := String.eqb (lower order) "desc" in
  list_sort (row_lt column_name) reverse_order current_data.

Fixpoint sort_passes (current_data : Dataset) (keys : list (string * string)) : result Dataset :=
  match keys with
  | [] => Ok current_data
  | key_info :: keys' =>
      d <- sort_pass current_data key_info ;; sort_passes d keys'
  end.

Definition transform_sort_data (data : Dataset) (sort_keys : list (string * string)) : result Dataset :=
  match data, sort_keys with
  | [], _ => Ok data
  | _, [] => Ok data
  | _, _ => sort_passes data (rev sort_keys)
  end.

(** ** AddOrModifyColumn: [transform_add_modify_column] *)

Definition dquote : ascii := "034"%char.
Definition squote : ascii := "039"%char.

(** [expression.split('+')[1].strip()], read only when ['+' in expression] *)
Definition plus_operand (expression : string) : string :=
  strip (nth 1 (split "+" expression) "").

(** The condition of the first [if] *)
Definition concat_rule (expression : string) : bool :=
  has_char "+" expression
  && negb (existsb_str isdigit (plus_operand expression))
  && negb (startswith (String dquote "") (plus_operand expression)).

(** The condition of the [elif] *)
Definition arith_rule (expression : string) : bool :=
  has_char "*" expression
  || (has_char "+" expression && existsb_str isdigit (plus_operand expression)).

Definition op_symbol (op : arith_op) : ascii :=
  match op with OpMul => "*"%char | OpAdd => "+"%char end.

(** [op_char] *)
Definition op_char (expression : string) : option arith_op :=
  if has_char "*" expression then Some OpMul
  else if has_char "+" expression then Some OpAdd
  else None.

(** [str(new_row.get(e, e if not e.isalnum() else ""))] *)
Definition resolve_side (new_row : Record) (val_expr : string) : string :=
  py_str (match dict_get val_expr new_row with
          | Some v => v
          | None => VStr (if negb (isalnum val_expr) then val_expr else "")
          end).

(** The expression wrapped in double or in single quotes *)
Definition is_quoted (expression : string) : bool :=
  (startswith (String dquote "") expression && endswith (String dquote "") expression)
  || (startswith (String squote "") expression && endswith (String squote "") expression).

(** The body of the [try]: the value assigned to the new column *)
Definition eval_expression (new_row : Record) (expression : string) : result Value :=
  if concat_rule expression then
    match cut "+" expression with
    | (p1, Some p2) =>
        let val1 := resolve_side new_row (strip p1) in
        let val2 := resolve_side new_row (strip p2) in
        Ok (VStr (val1 ++ val2))
    | (_, None) => Ok (_try_convert_type (VStr expression))
    end
  else if arith_rule expression then
    match op_char expression with
    | Some op =>
        match cut (op_symbol op) expression with
        | (p1, Some p2) =>
            let col_operand_name := strip p1 in
            let literal_operand_str := strip p2 in
            match dict_get col_operand_name new_row with
            | Some v =>
                let col_val := _try_convert_type v in
                let literal_val := _try_convert_type (VStr literal_operand_str) in
                if is_numeric col_val && is_numeric literal_val
                then py_arith op col_val literal_val
                else Ok VNull
            | None => Ok VNull
            end
        | (_, None) => Ok (_try_convert_type (VStr expression))
        end
    | None => Ok (_try_convert_type (VStr expression))
    end
  else
    if is_quoted expression then Ok (VStr (slice_1_m1 expression))
    else Ok (_try_convert_type (VStr expression)).

(** One turn of the loop; an exception of the body leaves [None] *)
Definition add_modify_row (new_col_name expression : string) (original_row : Record) : Record :=
  match eval_expression original_row expression with
  | Ok v => dict_set new_col_name v original_row
  | Raise _ => dict_set new_col_name VNull original_row
  end.

Definition transform_add_modify_column (data : Dataset) (new_col_name expression : string) : Dataset :=
  match data with
  | [] => []
  | _ => map (add_modify_row new_col_name expression) data
  end.

(** ** The stage loop of [main] *)

(** [old, new = pair.split(':', 1)] for every pair, a [ValueError] when a
    pair has no colon *)
Fixpoint parse_rename (pairs : list string) (rename_map : list (string * string)) :
    result (list (string * string)) :=
  match pairs with
  | [] => Ok rename_map
  | pair_text :: pairs' =>
      match cut ":" pair_text with
      | (old, Some new) => parse_rename pairs' (dict_set (strip old) (strip new) rename_map)
      | (_, None) => Raise ValueError
      end
  end.

Fixpoint parse_sort (keys : list string) : result (list (string * string)) :=
  match keys with
  | [] => Ok []
  | key_pair :: keys' =>
      match cut ":" key_pair with
      | (col, Some order) =>
          rest <- parse_sort keys' ;;
          Ok ((strip col, lower (strip order)) :: rest)
      | (_, None) => Raise ValueError
      end
  end.

(** The body of the [try] for one transformation string: the new
    [current_data], or the exception that leaves the body *)
Definition apply_transform (current_data : Dataset) (trans_str : string) : result Dataset :=
  match cut ":" trans_str with
  | (_, None) => Raise ValueError
  | (action_text, Some params_str) =>
      let action := lower (strip action_text) in
      if String.eqb action "select" then
        Ok (transform_select_columns current_data (map strip (split "," params_str)))
      else if String.eqb action "filter" then
        match map strip (split_max "," 2 params_str) with
        | [col; op; val] => Ok (transform_filter_rows current_data col op val)
        | _ => Ok current_data
        end
      else if String.eqb action "rename" then
        rename_map <- parse_rename (split "," params_str) [] ;;
        Ok (transform_rename_columns current_data rename_map)
      else if String.eqb action "sort" then
        sort_keys_info <- parse_sort (split "," params_str) ;;
        transform_sort_data current_data sort_keys_info
      else if String.eqb action "addcol" then
        if negb (has_char "=" params_str) then Ok current_data
        else
          match cut "=" params_str with
          | (new_col_name, Some expression) =>
              Ok (transform_add_modify_column current_data (strip new_col_name) (strip expression))
          | (_, None) => Raise ValueError
          end
      else Ok current_data
  end.

(** One turn of the loop: both [except] clauses log and go on *)
Definition run_stage (current_data : Dataset) (trans_str : string) : Dataset :=
  match apply_transform current_data trans_str with
  | Ok d => d
  | Raise _ => current_data
  end.

(** [for trans_str in args.transform] *)
Definition run_pipeline (loaded_data : Dataset) (transforms : list string) : Dataset :=
  fold_left run_stage transforms loaded_data.

End Engine.

Arguments insert_sorted {A} lt x l.
Arguments stable_sort {A} lt l.
Arguments list_sort {A} lt reverse l.

(** ** The binary64 text conversions

    An executable instance of [FloatText]: decimal text read with
    round-to-nearest-even, and the shortest decimal text that reads back to
    the same float, laid out as [repr] does. *)

(** The float nearest to [m * 10 ^ e10], [m >= 0] *)
Definition decimal_to_float (neg : bool) (m e10 : Z) : spec_float :=
  match m with
  | Zpos p =>
      if 0 <=? e10
      then binary_round prec emax neg (Z.to_pos (Zpos p * 10 ^ e10)) 0
      else
        let '(q, e, l) := SFdiv_core_binary prec emax (Zpos p) 0 (10 ^ (- e10)) 0 in
        binary_round_aux prec emax neg q e l
  | _ => S754_zero neg
  end.

Definition digitpart_ok (s : string) : bool :=
  match s with
  | EmptyString => true
  | _ => valid_digitpart s
  end.

(** The exponent part: empty, or [e], an optional sign and a digit part *)
Definition read_exponent (s : string) : option Z :=
  match s with
  | EmptyString => Some 0
  | String c t =>
      if Ascii.eqb (lower_char c) "e" then
        let (eneg, et) := split_sign t in
        if valid_digitpart et
        then let (v, _) := digits_value 0 0 et in Some (if eneg then - v else v)
        else None
      else None
  end.

Definition float_of_str_b64 (s : string) : option spec_float :=
  let (neg, body) := split_sign (strip s) in
  let word := lower body in
  if String.eqb word "inf" || String.eqb word "infinity" then Some (S754_infinity neg)
  else if String.eqb word "nan" then Some S754_nan
  else
    let (ip, r1) := span_digitpart body in
    let (fp, r2) := match r1 with
                    | String "." t => span_digitpart t
                    | _ => (EmptyString, r1)
                    end in
    if digitpart_ok ip && digitpart_ok fp
       && negb (String.eqb ip "" && String.eqb fp "")
    then
      match read_exponent r2 with
      | Some ex =>
          let (m, _) := digits_value 0 0 ip in
          let (m', nf) := digits_value m 0 fp in
          Some (decimal_to_float neg m' (ex - nf))
      | None => None
      end
    else None.

Definition Zlength_str (s : string) : Z := Z.of_nat (String.length s).

Fixpoint zeros (n : nat) : string :=
  match n with
  | O => EmptyString
  | S n' => String "0" (zeros n')
  end.

(** Trailing zeros dropped, one digit kept *)
Fixpoint drop_trailing_zeros (s : string) : string :=
  match s with
  | EmptyString => EmptyString
  | String c s' =>
      match drop_trailing_zeros s' with
      | EmptyString => String c EmptyString
      | t => if forallb_str (Ascii.eqb "0") s' then String c EmptyString else String c t
      end
  end.

(** The largest [L] with [10 ^ L <= num / den], by search from a bound *)
Fixpoint floor_log10 (fuel : nat) (L : Z) (num den : Z) : Z :=
  match fuel with
  | O => L
  | S fuel' =>
      if (if 0 <=? L then den * 10 ^ L <=? num else den <=? num * 10 ^ (- L))
      then L
      else floor_log10 fuel' (L - 1) num den
  end.

(** The [n]-digit decimals just below and just above [num / den]
    ([c * 10 ^ k] each), the one nearer first *)
Definition decimal_neighbours (n : Z) (L : Z) (num den : Z) : (Z * Z) * Z :=
  let k := L - n + 1 in
  let num' := if 0 <=? k then num else num * 10 ^ (- k) in
  let den' := if 0 <=? k then den * 10 ^ k else den in
  let lo := num' / den' in
  let hi := lo + 1 in
  if 2 * num' <=? (lo + hi) * den' then ((lo, hi), k) else ((hi, lo), k).

(** The shortest decimal [c * 10 ^ k] that reads back as the float *)
Fixpoint shortest_decimal (fuel : nat) (n : Z) (L : Z) (m : positive) (e : Z) : Z * Z :=
  let num := if 0 <=? e then Zpos m * 2 ^ e else Zpos m in
  let den := if 0 <=? e then 1 else 2 ^ (- e) in
  let '((c1, c2), k) := decimal_neighbours n L num den in
  let reads_back c :=
    match exact_compare (decimal_to_float false c k) (S754_finite false m e) with
    | Some Eq => true
    | _ => false
    end in
  match fuel with
  | O => (c1, k)
  | S fuel' =>
      if reads_back c1 then (c1, k)
      else if reads_back c2 then (c2, k)
      else shortest_decimal fuel' (n + 1) L m e
  end.

Definition substring_from (n : nat) (s : string) : string :=
  String.substring n (String.length s - n) s.

(** The layout of [repr]: digits [D] with the point after [decpt] of them *)
Definition format_short (D : string) (decpt : Z) : string :=
  let n := Zlength_str D in
  if (decpt <=? -4) || (16 <? decpt) then
    let ex := decpt - 1 in
    let ex_text := str_of_int (Z.abs ex) in
    String.substring 0 1 D
    ++ (if 1 <? n then "." ++ substring_from 1 D else "")
    ++ "e" ++ (if ex <? 0 then "-" else "+")
    ++ (if Zlength_str ex_text <? 2 then "0" else "") ++ ex_text
  else if decpt <=? 0 then "0." ++ zeros (Z.to_nat (- decpt)) ++ D
  else if n <=? decpt then D ++ zeros (Z.to_nat (decpt - n)) ++ ".0"
  else String.substring 0 (Z.to_nat decpt) D ++ "." ++ substring_from (Z.to_nat decpt) D.

Definition str_of_float_b64 (f : spec_float) : string :=
  match f with
  | S754_nan => "nan"
  | S754_infinity s => if s then "-inf" else "inf"
  | S754_zero s => if s then "-0.0" else "0.0"
  | S754_finite s m e =>
      let num := if 0 <=? e then Zpos m * 2 ^ e else Zpos m in
      let den := if 0 <=? e then 1 else 2 ^ (- e) in
      let L := floor_log10 700 310 num den in
      let (c, k) := shortest_decimal 16 1 L m e in
      let D := str_of_int c in
      (if s then "-" else "")
      ++ format_short (drop_trailing_zeros D) (Zlength_str D + k)
  end.

Definition binary64_text : FloatText :=
  {| float_of_str := float_of_str_b64; str_of_float := str_of_float_b64 |}.

(** ** Vocabulary of the properties *)

Definition fmap {A B : Type} (f : A -> B) (m : result A) : result B :=
  match m with
  | Ok a => Ok (f a)
  | Raise e => Raise e
  end.

(** The record has no field [col]. *)
Definition missing (col : string) (r : Record) : Prop :=
  dict_get col r = None.

(** The record has field [col], and with a value that is not Null. *)
Definition has_value (col : string) (r : Record) : Prop :=
  exists v, dict_get col r = Some v /\ v <> VNull.

(** The field is missing or holds Null: [row.get(col)] is [None]. *)
Definition absent (col : string) (r : Record) : Prop :=
  missing col r \/ dict_get col r = Some VNull.

(** Every record with [P] stands before every record with [Q]. *)
Definition all_before (P Q : Record -> Prop) (l : Dataset) : Prop :=
  forall i j ri rj,
    nth_error l i = Some ri -> nth_error l j = Some rj ->
    P ri -> Q rj -> (i < j)%nat.


(** An absent field [col] is replaced by an explicit Null in the records
    that [sel] picks. *)
Definition null_fill (sel : Record -> bool) (col : string) (r : Record) : Record :=
  if sel r && negb (dict_mem col r) then dict_set col VNull r else r.

(** The kinds of a pair that [<] orders natively: two numbers, two strings *)
Definition comparable_kinds (a b : Value) : bool :=
  (is_numeric a && is_numeric b) || (is_str a && is_str b).

(** A transformation string that cannot be read: no colon after the
    action, an unknown action, a filter without its three parts, a rename
    or sort pair without a colon, an addcol without [=]. *)
Definition malformed (trans_str : string) : bool :=
  match cut ":" trans_str with
  | (_, None) => true
  | (action_text, Some params_str) =>
      let action := lower (strip action_text) in
      if String.eqb action "select" then false
      else if String.eqb action "filter" then
        negb (Nat.eqb (List.length (split_max "," 2 params_str)) 3)
      else if String.eqb action "rename" || String.eqb action "sort" then
        existsb (fun p => negb (has_char ":" p)) (split "," params_str)
      else if String.eqb action "addcol" then negb (has_char "=" params_str)
      else true
  end.

(** [x] is not smaller than [y]: the comparison [x < y] returns False. *)
Definition not_smaller {A : Type} (lt : A -> A -> result bool) (y x : A) : Prop :=
  lt x y = Ok false.

(** The order of a flag: an unflagged element may stand before any
    element, a flagged one only before flagged ones. *)
Definition flag_le {A : Type} (fl : A -> bool) (x y : A) : Prop :=
  fl x = true -> fl y = true.

(** An expression wrapped in the quote [q] *)
Definition quoted (q : ascii) (content : string) : string :=
  String q (content ++ String q "").

(** The field names of a record are pairwise different, as the keys of a
    [dict] are. *)
Definition wf_record (r : Record) : Prop := NoDup (map fst r).

(** The operators that [transform_filter_rows] knows *)
Definition known_operators : list string :=
  [">"; "<"; ">="; "<="; "=="; "!="; "contains"; "startswith"; "endswith"].

(** What a comparison operator of the filter means on two integers *)
Definition int_rel (operator : string) (a b : Z) : bool :=
  if String.eqb operator ">" then a >? b
  else if String.eqb operator "<" then a <? b
  else if String.eqb operator ">=" then a >=? b
  else if String.eqb operator "<=" then a <=? b
  else if String.eqb operator "==" then a =? b
  else if String.eqb operator "!=" then negb (a =? b)
  else false.

(** What a sort key is to [<]: a number, a text, or nothing *)
Inductive key_class : Type := KNumber | KText | KNone.

Definition class_of (v : Value) : key_class :=
  match v with
  | VInt _ | VFloat _ => KNumber
  | VStr _ => KText
  | VNull => KNone
  end.

(** The classes that may follow each other in a sorted column: a class
    is followed by itself or by nothing. *)
Definition next_ok (c1 c2 : key_class) : Prop := c2 = c1 \/ c2 = KNone.

(** ** Sample data *)

Definition emp_no_dept : Record := [("id", VInt 1)].
Definition emp_sales : Record := [("id", VInt 2); ("dept", VInt 5)].
Definition emp_ops : Record := [("id", VInt 3); ("dept", VInt 2)].
Definition emp_sales_b : Record := [("id", VInt 4); ("dept", VInt 5)].

Definition staff : Dataset := [emp_no_dept; emp_sales; emp_ops; emp_sales_b].

Definition named : Record := [("Name", VStr "abc")].

Definition ab_row : Record := [("A", VInt 1); ("B", VInt 2)].

Definition ann_lee : Record := [("FirstName", VStr "Ann"); ("LastName", VStr "Lee")].

Definition age_text : Record := [("Age", VStr "30")].
Definition age_int : Record := [("Age", VInt 30)].


Definition raw_row : Record := [("id", VStr "7"); ("name", VStr "x")].

Definition mixed_v : Dataset := [[("v", VInt 1)]; [("v", VStr "x")]].

(** * Properties *)

(** ** The result monad *)

Lemma bind_Ok_inv {A B : Type} (m : result A) (k : A -> result B) (b : B) :
  bind m k = Ok b -> exists a, m = Ok a /\ k a = Ok b.
Proof.
  destruct m as [a | e]; simpl; intros H.
  - exists a; split; [reflexivity | exact H].
  - discriminate.
Qed.

Ltac bind_inv H :=
  let a := fresh "a" in
  let Ha := fresh "Ha" in
  apply bind_Ok_inv in H; destruct H as (a & Ha & H).

(** ** The sort of lists *)

Section SortFacts.

Variable A : Type.
Variable lt : A -> A -> result bool.

Lemma insert_sorted_perm (x : A) (l r : list A) :
  insert_sorted lt x l = Ok r -> Permutation (x :: l) r.
Proof.
  revert r; induction l as [| y l IH]; simpl; intros r H.
  - injection H as <-. apply Permutation_refl.
  - bind_inv H. destruct a.
    + bind_inv H. injection H as <-.
      apply perm_trans with (y :: x :: l); [apply perm_swap |].
      apply perm_skip, IH, Ha0.
    + injection H as <-. apply Permutation_refl.
Qed.

Lemma stable_sort_perm (l r : list A) :
  stable_sort lt l = Ok r -> Permutation l r.
Proof.
  revert r; induction l as [| x l IH]; simpl; intros r H.
  - injection H as <-. constructor.
  - bind_inv H. apply insert_sorted_perm in H.
    apply perm_trans with (x :: a); [apply perm_skip, IH, Ha | exact H].
Qed.

Lemma list_sort_perm (reverse : bool) (l r : list A) :
  list_sort lt reverse l = Ok r -> Permutation l r.
Proof.
  unfold list_sort; destruct reverse; intros H.
  - bind_inv H. injection H as <-. apply stable_sort_perm in Ha.
    apply perm_trans with (rev l); [apply Permutation_rev |].
    apply perm_trans with a; [exact Ha | apply Permutation_rev].
  - apply stable_sort_perm, H.
Qed.

(** *** Grouping by a flag that [lt] respects *)

Variable fl : A -> bool.

Hypothesis lt_flag :
  forall x y, fl x <> fl y -> lt x y = Ok (negb (fl x) && fl y).

Lemma insert_sorted_flag (x : A) (l r : list A) :
  insert_sorted lt x l = Ok r ->
  StronglySorted (flag_le fl) l -> StronglySorted (flag_le fl) r.
Proof.
  revert r; induction l as [| y l IH]; simpl; intros r H Hs.
  - injection H as <-. constructor; constructor.
  - apply StronglySorted_inv in Hs. destruct Hs as [Hs Hy].
    bind_inv H. destruct a.
    + bind_inv H. injection H as <-.
      constructor; [apply IH; assumption |].
      apply (Permutation_Forall (insert_sorted_perm _ _ _ Ha0)).
      constructor; [| exact Hy].
      intros Fy. destruct (fl x) eqn:Fx; [reflexivity |].
      rewrite lt_flag in Ha by congruence.
      rewrite Fy in Ha. simpl in Ha. discriminate.
    + injection H as <-.
      assert (Hxy : flag_le fl x y).
      { intros Fx. destruct (fl y) eqn:Fy; [reflexivity |].
        rewrite lt_flag in Ha by congruence.
        rewrite Fx, Fy in Ha. simpl in Ha. discriminate. }
      constructor; [constructor; assumption |].
      constructor; [exact Hxy |].
      eapply Forall_impl; [| exact Hy].
      intros z Hz Fx. apply Hz, Hxy, Fx.
Qed.

Lemma stable_sort_flag (l r : list A) :
  stable_sort lt l = Ok r -> StronglySorted (flag_le fl) r.
Proof.
  revert r; induction l as [| x l IH]; simpl; intros r H.
  - injection H as <-. constructor.
  - bind_inv H. eapply insert_sorted_flag; [exact H | apply IH, Ha].
Qed.

Lemma StronglySorted_nth (R : A -> A -> Prop) (l : list A) :
  StronglySorted R l ->
  forall i j a b, (i < j)%nat ->
    nth_error l i = Some a -> nth_error l j = Some b -> R a b.
Proof.
  induction 1 as [| x l Hs IH Hx]; intros i j a b Hij Hi Hj.
  - destruct i; discriminate.
  - destruct j as [| j]; [inversion Hij |].
    simpl in Hj. destruct i as [| i].
    + simpl in Hi. injection Hi as <-.
      rewrite Forall_forall in Hx. apply Hx.
      eapply nth_error_In, Hj.
    + simpl in Hi. apply (IH i j); [apply PeanoNat.lt_S_n, Hij | assumption ..].
Qed.

(** After an ascending sort no flagged element stands before an
    unflagged one; after a reverse sort it is the other way round. *)
Lemma list_sort_flag (reverse : bool) (l r : list A) :
  list_sort lt reverse l = Ok r ->
  forall i j a b,
    nth_error r i = Some a -> nth_error r j = Some b ->
    fl a = reverse -> fl b = negb reverse -> (i < j)%nat.
Proof.
  unfold list_sort; destruct reverse; intros H i j a b Hi Hj Fa Fb.
  - bind_inv H. injection H as <-.
    apply stable_sort_flag in Ha.
    rewrite nth_error_rev in Hi, Hj.
    destruct (Nat.ltb_spec i (List.length a0)) as [Li |]; [| discriminate].
    destruct (Nat.ltb_spec j (List.length a0)) as [Lj |]; [| discriminate].
    destruct (PeanoNat.Nat.lt_trichotomy i j) as [Hlt | [Heq | Hgt]];
      [exact Hlt | |].
    + subst j. rewrite Hi in Hj. injection Hj as <-.
      rewrite Fa in Fb. discriminate.
    + exfalso.
      assert (Hle : flag_le fl a b).
      { apply (StronglySorted_nth _ _ Ha (List.length a0 - S i) (List.length a0 - S j))%nat;
          [lia | assumption ..]. }
      rewrite (Hle Fa) in Fb. discriminate.
  - apply stable_sort_flag in H.
    destruct (PeanoNat.Nat.lt_trichotomy i j) as [Hlt | [Heq | Hgt]];
      [exact Hlt | |].
    + subst j. rewrite Hi in Hj. injection Hj as <-.
      rewrite Fa in Fb. discriminate.
    + exfalso.
      assert (Hle : flag_le fl b a).
      { apply (StronglySorted_nth _ _ H j i); assumption. }
      rewrite (Hle Fb) in Fa. discriminate.
Qed.

End SortFacts.

Section SortStable.

Variable A : Type.
Variable lt : A -> A -> result bool.
Variable p : A -> bool.




End SortStable.

Section SortMap.

Variables A B : Type.
Variable ltA : A -> A -> result bool.
Variable ltB : B -> B -> result bool.
Variable g : A -> B.

Hypothesis lt_g : forall a b, ltB (g a) (g b) = ltA a b.

Lemma insert_sorted_map (x : A) (l : list A) :
  insert_sorted ltB (g x) (map g l) = fmap (map g) (insert_sorted ltA x l).
Proof.
  induction l as [| y l IH]; simpl; [reflexivity |].
  rewrite lt_g. destruct (ltA y x) as [[|] | e]; simpl; try reflexivity.
  rewrite IH. destruct (insert_sorted ltA x l); reflexivity.
Qed.

Lemma stable_sort_map (l : list A) :
  stable_sort ltB (map g l) = fmap (map g) (stable_sort ltA l).
Proof.
  induction l as [| x l IH]; simpl; [reflexivity |].
  rewrite IH. destruct (stable_sort ltA l) as [s | e]; simpl; [| reflexivity].
  apply insert_sorted_map.
Qed.

Lemma list_sort_map (reverse : bool) (l : list A) :
  list_sort ltB reverse (map g l) = fmap (map g) (list_sort ltA reverse l).
Proof.
  unfold list_sort; destruct reverse; [| apply stable_sort_map].
  rewrite <- map_rev, stable_sort_map.
  destruct (stable_sort ltA (rev l)) as [s | e]; simpl; [| reflexivity].
  rewrite map_rev. reflexivity.
Qed.

End SortMap.

Section SortOrder.

Variable A : Type.
Variable lt : A -> A -> result bool.

Hypothesis lt_asym : forall x y, lt x y = Ok true -> lt y x = Ok false.

Lemma insert_sorted_HdRel (x y : A) (l r : list A) :
  insert_sorted lt x l = Ok r ->
  not_smaller lt y x -> HdRel (not_smaller lt) y l -> HdRel (not_smaller lt) y r.
Proof.
  destruct l as [| z l]; simpl; intros H Hx Hl.
  - injection H as <-. constructor. exact Hx.
  - bind_inv H. destruct a.
    + bind_inv H. injection H as <-. constructor.
      apply HdRel_inv in Hl. exact Hl.
    + injection H as <-. constructor. exact Hx.
Qed.

Lemma insert_sorted_Sorted (x : A) (l r : list A) :
  insert_sorted lt x l = Ok r ->
  Sorted (not_smaller lt) l -> Sorted (not_smaller lt) r.
Proof.
  revert r; induction l as [| y l IH]; simpl; intros r H Hs.
  - injection H as <-. repeat constructor.
  - apply Sorted_inv in Hs. destruct Hs as [Hs Hy].
    bind_inv H. destruct a.
    + bind_inv H. injection H as <-.
      constructor; [apply IH; assumption |].
      eapply insert_sorted_HdRel; [exact Ha0 | | exact Hy].
      apply lt_asym, Ha.
    + injection H as <-.
      constructor; [constructor; assumption |].
      constructor. exact Ha.
Qed.

Lemma stable_sort_Sorted (l r : list A) :
  stable_sort lt l = Ok r -> Sorted (not_smaller lt) r.
Proof.
  revert r; induction l as [| x l IH]; simpl; intros r H.
  - injection H as <-. constructor.
  - bind_inv H. eapply insert_sorted_Sorted; [exact H | apply IH, Ha].
Qed.



End SortOrder.

Section SortTotal.

Variable A : Type.
Variable lt : A -> A -> result bool.

Lemma insert_sorted_returns (x : A) (l : list A) :
  (forall y, In y l -> exists b, lt y x = Ok b) ->
  exists r, insert_sorted lt x l = Ok r.
Proof.
  induction l as [| y l IH]; simpl; intros H.
  - eexists; reflexivity.
  - destruct (H y (or_introl eq_refl)) as [b ->]. simpl.
    destruct b; [| eexists; reflexivity].
    destruct IH as [r ->]; [intros z Hz; apply H; right; exact Hz |].
    eexists; reflexivity.
Qed.

Lemma stable_sort_returns (l : list A) :
  (forall x y, In x l -> In y l -> exists b, lt x y = Ok b) ->
  exists r, stable_sort lt l = Ok r.
Proof.
  induction l as [| x l IH]; simpl; intros H.
  - eexists; reflexivity.
  - destruct IH as [s Hs]; [intros u v Hu Hv; apply H; auto |].
    rewrite Hs. simpl. apply insert_sorted_returns.
    intros y Hy. apply H; [right | left; reflexivity].
    eapply Permutation_in; [apply Permutation_sym, (stable_sort_perm _ _ _ _ Hs) | exact Hy].
Qed.

Lemma list_sort_returns (reverse : bool) (l : list A) :
  (forall x y, In x l -> In y l -> exists b, lt x y = Ok b) ->
  exists r, list_sort lt reverse l = Ok r.
Proof.
  unfold list_sort; destruct reverse; intros H.
  - destruct (stable_sort_returns (rev l)) as [s ->].
    + intros x y Hx Hy. apply H; apply in_rev; assumption.
    + eexists; reflexivity.
  - apply stable_sort_returns, H.
Qed.

End SortTotal.

(** ** Records *)

Lemma dict_get_dict_set (k k' : string) (v : Value) (row : Record) :
  dict_get k' (dict_set k v row) =
  if String.eqb k' k then Some v else dict_get k' row.
Proof.
  induction row as [| [k1 v1] row IH]; simpl.
  - destruct (String.eqb k' k); reflexivity.
  - destruct (String.eqb_spec k k1) as [-> | Hk]; simpl.
    + destruct (String.eqb k' k1); reflexivity.
    + rewrite IH. destruct (String.eqb_spec k' k1) as [-> | Hk'].
      * destruct (String.eqb_spec k1 k) as [<- | _]; [contradiction | reflexivity].
      * reflexivity.
Qed.

Lemma dict_set_new (k : string) (v : Value) (row : Record) :
  dict_get k row = None -> dict_set k v row = (row ++ [(k, v)])%list.
Proof.
  induction row as [| [k1 v1] row IH]; simpl; [reflexivity |].
  destruct (String.eqb k k1); [discriminate |].
  intros H. rewrite IH by exact H. reflexivity.
Qed.

Lemma dict_index_dict_set (k : string) (v : Value) (row : Record) (n : nat) :
  dict_index k row = Some n -> dict_index k (dict_set k v row) = Some n.
Proof.
  revert n; induction row as [| [k1 v1] row IH]; simpl; intros n H.
  - discriminate.
  - destruct (String.eqb k k1) eqn:E; simpl; rewrite E; [exact H |].
    destruct (dict_index k row) as [m |]; [| discriminate].
    rewrite (IH m eq_refl). exact H.
Qed.

Lemma row_get_null_fill (sel : Record -> bool) (col c : string) (r : Record) :
  row_get c (null_fill sel col r) = row_get c r.
Proof.
  unfold null_fill, dict_mem, row_get.
  destruct (sel r); simpl; [| reflexivity].
  destruct (dict_get col r) eqn:E; simpl; [reflexivity |].
  rewrite dict_get_dict_set.
  destruct (String.eqb_spec c col) as [-> | _]; [rewrite E |]; reflexivity.
Qed.

(** ** The order of values *)

Lemma finite_compare_antisym (m1 e1 m2 e2 : Z) :
  (m2 * 2 ^ (e2 - Z.min e2 e1) ?= m1 * 2 ^ (e1 - Z.min e2 e1)) =
  CompOpp (m1 * 2 ^ (e1 - Z.min e1 e2) ?= m2 * 2 ^ (e2 - Z.min e1 e2)).
Proof. rewrite (Z.min_comm e2 e1). apply Z.compare_antisym. Qed.

Lemma exact_compare_antisym (x y : spec_float) :
  exact_compare y x = option_map CompOpp (exact_compare x y).
Proof.
  destruct x as [sx | sx | | sx mx ex], y as [sy | sy | | sy my ey];
    cbv beta iota delta [exact_compare SF_finite_parts option_map];
    try reflexivity;
    try (apply f_equal, finite_compare_antisym);
    try (destruct sx; reflexivity);
    try (destruct sy; reflexivity);
    destruct sx, sy; reflexivity.
Qed.

Lemma py_compare_antisym (a b : Value) :
  py_compare b a = fmap (option_map CompOpp) (py_compare a b).
Proof.
  destruct a as [x | f | s |], b as [y | g | t |]; simpl; try reflexivity;
    try (rewrite exact_compare_antisym; reflexivity).
  rewrite String.compare_antisym. reflexivity.
Qed.

Lemma py_lt_asym (a b : Value) :
  py_lt a b = Ok true -> py_lt b a = Ok false.
Proof.
  unfold py_lt. rewrite (py_compare_antisym a b).
  destruct (py_compare a b) as [[[| |] |] | e]; simpl; intros H;
    try discriminate; reflexivity.
Qed.

Lemma key_lt_asym (k1 k2 : bool * Value) :
  key_lt k1 k2 = Ok true -> key_lt k2 k1 = Ok false.
Proof.
  unfold key_lt. destruct k1 as [f1 v1], k2 as [f2 v2]; simpl.
  destruct f1, f2; simpl; try discriminate; try reflexivity.
  - destruct (py_eq v1 v2); simpl; [discriminate |].
    intros H. apply py_lt_asym in H. rewrite H.
    destruct (py_eq v2 v1); reflexivity.
  - destruct (py_eq v1 v2); simpl; [discriminate |].
    intros H. apply py_lt_asym in H. rewrite H.
    destruct (py_eq v2 v1); reflexivity.
Qed.

(** The key comparison returns, and raises nothing, when one of the two
    fields is missing or Null or when the two values are two numbers or
    two strings. *)
Lemma row_lt_returns (col : string) (r1 r2 : Record) :
  row_get col r1 = VNull \/ row_get col r2 = VNull
  \/ comparable_kinds (row_get col r1) (row_get col r2) = true ->
  exists b, row_lt col r1 r2 = Ok b.
Proof.
  unfold row_lt, key_lt, sort_key; simpl.
  destruct (row_get col r1) as [x | f | s |], (row_get col r2) as [y | g | t |];
    simpl; intros [H | [H | H]]; try discriminate;
    try (eexists; reflexivity);
    match goal with
    | |- context [if ?c then _ else _] => destruct c; eexists; reflexivity
    end.
Qed.

(** ** Sort keys *)

Lemma row_lt_flag (col : string) (x y : Record) :
  fst (sort_key col x) <> fst (sort_key col y) ->
  row_lt col x y = Ok (negb (fst (sort_key col x)) && fst (sort_key col y)).
Proof.
  unfold row_lt, key_lt. intros H.
  destruct (fst (sort_key col x)), (fst (sort_key col y)); simpl;
    try reflexivity; contradiction H; reflexivity.
Qed.


Lemma has_value_flag (col : string) (r : Record) :
  has_value col r <-> fst (sort_key col r) = false.
Proof.
  unfold has_value, sort_key, row_get; simpl. split.
  - intros (v & -> & Hv). destruct v; try reflexivity. contradiction.
  - destruct (dict_get col r) as [v |]; [| discriminate].
    intros H. exists v; split; [reflexivity |].
    intros ->. discriminate.
Qed.

Lemma absent_flag (col : string) (r : Record) :
  absent col r <-> fst (sort_key col r) = true.
Proof.
  unfold absent, missing, sort_key, row_get; simpl. split.
  - intros [-> | ->]; reflexivity.
  - destruct (dict_get col r) as [v |]; [| left; reflexivity].
    destruct v; try discriminate. right; reflexivity.
Qed.

Lemma sort_passes_app (d : Dataset) (k1 k2 : list (string * string)) :
  sort_passes d (k1 ++ k2) = (d' <- sort_passes d k1 ;; sort_passes d' k2).
Proof.
  revert d; induction k1 as [| k k1 IH]; simpl; intros d; [reflexivity |].
  destruct (sort_pass d k) as [d1 | e]; simpl; [apply IH | reflexivity].
Qed.

Lemma sort_pass_perm (d d' : Dataset) (key_info : string * string) :
  sort_pass d key_info = Ok d' -> Permutation d d'.
Proof.
  destruct key_info as [col order]; unfold sort_pass.
  apply list_sort_perm.
Qed.

Lemma sort_passes_perm (keys : list (string * string)) (d d' : Dataset) :
  sort_passes d keys = Ok d' -> Permutation d d'.
Proof.
  revert d; induction keys as [| k keys IH]; simpl; intros d H.
  - injection H as <-. apply Permutation_refl.
  - bind_inv H. apply sort_pass_perm in Ha.
    apply perm_trans with a; [exact Ha | apply IH, H].
Qed.

Lemma sort_pass_map (g : Record -> Record) (d : Dataset) (key_info : string * string) :
  (forall r c, row_get c (g r) = row_get c r) ->
  sort_pass (map g d) key_info = fmap (map g) (sort_pass d key_info).
Proof.
  destruct key_info as [col order]; unfold sort_pass; intros Hg.
  apply list_sort_map. intros a b.
  unfold row_lt, sort_key. rewrite !Hg. reflexivity.
Qed.

Lemma sort_passes_map (g : Record -> Record) (keys : list (string * string)) (d : Dataset) :
  (forall r c, row_get c (g r) = row_get c r) ->
  sort_passes (map g d) keys = fmap (map g) (sort_passes d keys).
Proof.
  intros Hg. revert d; induction keys as [| k keys IH]; simpl; intros d.
  - reflexivity.
  - rewrite (sort_pass_map g d k Hg).
    destruct (sort_pass d k) as [d1 | e]; simpl; [apply IH | reflexivity].
Qed.

(** A sort looks at a record only through [row.get]: it commutes with
    every change of the records that keeps what [row.get] returns. *)
Lemma transform_sort_data_map (g : Record -> Record) (data : Dataset)
    (sort_keys : list (string * string)) :
  (forall r c, row_get c (g r) = row_get c r) ->
  transform_sort_data (map g data) sort_keys =
  fmap (map g) (transform_sort_data data sort_keys).
Proof.
  intros Hg. unfold transform_sort_data.
  destruct data as [| r data]; [reflexivity |].
  destruct sort_keys as [| k ks]; [reflexivity |].
  apply (sort_passes_map g (rev (k :: ks)) (r :: data) Hg).
Qed.

Lemma sort_passes_returns (keys : list (string * string)) (d : Dataset) :
  (forall k r1 r2, In k keys -> In r1 d -> In r2 d ->
     exists b, row_lt (fst k) r1 r2 = Ok b) ->
  exists d', sort_passes d keys = Ok d'.
Proof.
  revert d; induction keys as [| [col order] keys IH]; simpl; intros d H.
  - eexists; reflexivity.
  - destruct (list_sort_returns _ (row_lt col) (String.eqb (lower order) "desc") d)
      as [d1 H1].
    { intros x y Hx Hy. apply (H (col, order)); auto. }
    rewrite H1. simpl. apply IH.
    intros k r1 r2 Hk Hr1 Hr2.
    apply list_sort_perm, Permutation_sym in H1.
    apply H; [right; exact Hk | | ];
      eapply Permutation_in; eassumption.
Qed.

(** The sort returns a Dataset whenever the comparisons it may ask
    return. *)
Lemma transform_sort_data_returns (data : Dataset) (sort_keys : list (string * string)) :
  (forall k r1 r2, In k sort_keys -> In r1 data -> In r2 data ->
     exists b, row_lt (fst k) r1 r2 = Ok b) ->
  exists out, transform_sort_data data sort_keys = Ok out.
Proof.
  intros H. unfold transform_sort_data.
  destruct data as [| r data]; [eexists; reflexivity |].
  destruct sort_keys as [| k ks]; [eexists; reflexivity |].
  apply sort_passes_returns.
  intros k' r1 r2 Hk. apply H, in_rev, Hk.
Qed.


(** ** Sort *)

(** C1, as amended.  The column of the first listed key groups the output
    by direction: with a direction other than desc the records whose field
    is missing or Null stand after every record that has a value, with
    desc they stand before every such record. *)
Theorem sort_groups_absent_by_direction
    (data : Dataset) (col dir : string) (keys : list (string * string)) (out : Dataset) :
  transform_sort_data data ((col, dir) :: keys) = Ok out ->
  if String.eqb (lower dir) "desc"
  then all_before (absent col) (has_value col) out
  else all_before (has_value col) (absent col) out.
Proof.
  unfold transform_sort_data. destruct data as [| r data].
  - intros H. injection H as <-.
    destruct (String.eqb (lower dir) "desc");
      intros [| i] j ri rj Hi; discriminate.
  - simpl rev. rewrite sort_passes_app. intros H.
    bind_inv H. simpl in H. bind_inv H. injection H as <-.
    unfold sort_pass in Ha0.
    pose proof (list_sort_flag _ _ (fun r => fst (sort_key col r))
                  (row_lt_flag col) _ _ _ Ha0) as Hf.
    destruct (String.eqb (lower dir) "desc");
      intros i j ri rj Hi Hj Pi Pj; apply (Hf i j ri rj Hi Hj).
    + apply absent_flag, Pi.
    + apply has_value_flag, Pj.
    + apply has_value_flag, Pi.
    + apply absent_flag, Pj.
Qed.



(** C10.  Writing an explicit Null into records that miss a column
    changes nothing for the sort: the records come out in the same order
    (and a sort that raises still raises), whatever the key list. *)
Theorem sort_ignores_null_fill
    (sel : Record -> bool) (col : string) (data : Dataset)
    (sort_keys : list (string * string)) :
  (forall r c, sort_key c (null_fill sel col r) = sort_key c r) /\
  transform_sort_data (map (null_fill sel col) data) sort_keys =
  fmap (map (null_fill sel col)) (transform_sort_data data sort_keys).
Proof.
  split.
  - intros r c. unfold sort_key. rewrite row_get_null_fill. reflexivity.
  - apply transform_sort_data_map. intros r c. apply row_get_null_fill.
Qed.

(** ** Rename *)

Lemma rename_single_pair (data : Dataset) (old new : string) :
  transform_rename_columns data [(old, new)] =
  map (fun r => rename_pair r (old, new)) data.
Proof. destruct data; reflexivity. Qed.

(** What one pair does to a record that has the old field. *)
Lemma rename_pair_moves_field (r : Record) (old new : string) (v : Value) :
  dict_get old r = Some v ->
  rename_pair r (old, new) = dict_set new v (dict_remove old r) /\
  dict_get new (rename_pair r (old, new)) = Some v /\
  (dict_get new (dict_remove old r) = None ->
     rename_pair r (old, new) = (dict_remove old r ++ [(new, v)])%list) /\
  (forall k, dict_index new (dict_remove old r) = Some k ->
     dict_index new (rename_pair r (old, new)) = Some k).
Proof.
  intros Hv. unfold rename_pair. rewrite Hv. repeat split.
  - rewrite dict_get_dict_set, String.eqb_refl. reflexivity.
  - apply dict_set_new.
  - intros k. apply dict_index_dict_set.
Qed.

(** C3, as amended.  A rename of one pair whose old field is present
    moves the value to the new name, not into the old slot: the old field
    is taken out, and the value goes to the end of the record when the new
    name is not a field of what remains, and into the slot of the new name
    when it is. *)
Theorem rename_moves_field
    (data : Dataset) (old new : string) (i : nat) (r : Record) (v : Value) :
  nth_error data i = Some r ->
  dict_get old r = Some v ->
  exists r',
    nth_error (transform_rename_columns data [(old, new)]) i = Some r' /\
    dict_get new r' = Some v /\
    (dict_get new (dict_remove old r) = None ->
       r' = (dict_remove old r ++ [(new, v)])%list) /\
    (forall k, dict_index new (dict_remove old r) = Some k ->
       dict_index new r' = Some k).
Proof.
  intros Hi Hv. exists (rename_pair r (old, new)).
  destruct (rename_pair_moves_field r old new v Hv) as (_ & H1 & H2 & H3).
  repeat split; try assumption.
  rewrite rename_single_pair.
  apply (map_nth_error (fun r => rename_pair r (old, new)) i data Hi).
Qed.

Section TextDependent.

Context {FT : FloatText}.

(** ** Coercion *)

(** A coerced string is never Null. *)
Lemma try_convert_type_str_not_null (s : string) :
  _try_convert_type (VStr s) <> VNull.
Proof.
  unfold _try_convert_type; simpl.
  destruct (int_of_str s); [discriminate |].
  destruct (float_of_str s); discriminate.
Qed.

(** C9.  Coercion is a total function of its input: a string becomes the
    Integer that [int] reads, else the Float that [float] reads, else
    stays the String it was; every other value is returned as it is. *)
Theorem try_convert_type_cases (value : Value) :
  match value with
  | VStr s =>
      match int_of_str s, float_of_str s with
      | Some z, _ => _try_convert_type value = VInt z
      | None, Some f => _try_convert_type value = VFloat f
      | None, None => _try_convert_type value = VStr s
      end
  | _ => _try_convert_type value = value
  end.
Proof.
  destruct value as [z | f | s |]; try reflexivity.
  unfold _try_convert_type; simpl.
  destruct (int_of_str s); [reflexivity |].
  destruct (float_of_str s); reflexivity.
Qed.

(** ** Filter *)

Lemma In_transform_filter_rows (data : Dataset) (column_name operator value_to_compare : string)
    (row : Record) :
  In row (transform_filter_rows data column_name operator value_to_compare) <->
  In row data /\
  filter_match column_name operator (_try_convert_type (VStr value_to_compare)) row = true.
Proof.
  unfold transform_filter_rows. destruct data as [| r data].
  - simpl. tauto.
  - apply filter_In.
Qed.

Lemma filter_test_incompatible (operator : string) (actual comp_value : Value) :
  comparable_kinds actual comp_value = false ->
  comp_value <> VNull ->
  (In operator [">"; "<"; ">="; "<="; "=="] ->
     filter_test operator actual comp_value = Ok false
     \/ filter_test operator actual comp_value = Raise TypeError) /\
  (operator = "!=" -> filter_test operator actual comp_value = Ok true).
Proof.
  intros Hk Hn. split.
  - intros Hop. simpl in Hop.
    destruct Hop as [<- | [<- | [<- | [<- | [<- | []]]]]];
      destruct actual, comp_value; try discriminate Hk;
        try (contradiction Hn; reflexivity);
        (left; reflexivity) || (right; reflexivity).
  - intros ->.
    destruct actual, comp_value; try discriminate Hk;
      try (contradiction Hn; reflexivity); reflexivity.
Qed.

(** C2, as amended.  When the field value and the coerced literal are of
    kinds that have no common ordering, the operators [>], [<], [>=],
    [<=] and [==] leave the record out and the operator [!=] keeps it; no
    error leaves the filter. *)
Theorem filter_incompatible_kinds
    (data : Dataset) (column_name operator value_to_compare : string)
    (row : Record) (actual : Value) :
  dict_get column_name row = Some actual ->
  comparable_kinds actual (_try_convert_type (VStr value_to_compare)) = false ->
  (In operator [">"; "<"; ">="; "<="; "=="] ->
     ~ In row (transform_filter_rows data column_name operator value_to_compare)) /\
  (operator = "!=" -> In row data ->
     In row (transform_filter_rows data column_name operator value_to_compare)).
Proof.
  intros Hget Hk.
  destruct (filter_test_incompatible operator actual _ Hk
              (try_convert_type_str_not_null value_to_compare)) as [H1 H2].
  split.
  - intros Hop Hin. apply In_transform_filter_rows in Hin.
    destruct Hin as [_ Hm]. unfold filter_match in Hm. rewrite Hget in Hm.
    destruct (H1 Hop) as [E | E]; rewrite E in Hm; discriminate.
  - intros Hop Hin. apply In_transform_filter_rows. split; [exact Hin |].
    unfold filter_match. rewrite Hget, (H2 Hop). reflexivity.
Qed.

End TextDependent.

(** ** Text *)

Lemma cut_has_char (c : ascii) (s : string) :
  has_char c s = true -> exists a b, cut c s = (a, Some b).
Proof.
  unfold has_char. induction s as [| x s IH]; simpl; [discriminate |].
  rewrite (Ascii.eqb_sym c x). destruct (Ascii.eqb x c); simpl.
  - intros _. eexists; eexists; reflexivity.
  - intros H. destruct (IH H) as (a & b & E). rewrite E.
    eexists; eexists; reflexivity.
Qed.

Lemma cut_no_char (c : ascii) (s : string) :
  has_char c s = false -> cut c s = (s, None).
Proof.
  unfold has_char. induction s as [| x s IH]; simpl; [reflexivity |].
  rewrite (Ascii.eqb_sym c x). destruct (Ascii.eqb x c); simpl; [discriminate |].
  intros H. rewrite (IH H). reflexivity.
Qed.

Lemma has_char_app (c : ascii) (s t : string) :
  has_char c (s ++ t) = has_char c s || has_char c t.
Proof.
  unfold has_char. induction s as [| x s IH]; simpl; [reflexivity |].
  rewrite IH. apply orb_assoc.
Qed.

Lemma rev_str_app (acc s t : string) :
  rev_str acc (s ++ t) = rev_str (rev_str acc s) t.
Proof. revert acc; induction s as [| x s IH]; simpl; intros acc; [reflexivity | apply IH]. Qed.

Lemma rev_str_rev_str (s a b : string) :
  rev_str a (rev_str b s) = rev_str (s ++ a) b.
Proof.
  revert a b; induction s as [| x s IH]; simpl; intros a b; [reflexivity |].
  rewrite IH. reflexivity.
Qed.

Lemma append_empty_r (s : string) : s ++ "" = s.
Proof. induction s as [| x s IH]; simpl; [reflexivity | rewrite IH; reflexivity]. Qed.

Lemma rev_str_involutive (s : string) : rev_str "" (rev_str "" s) = s.
Proof. rewrite rev_str_rev_str. simpl. apply append_empty_r. Qed.

Lemma quoted_wrapped (q : ascii) (content : string) :
  startswith (String q "") (quoted q content) = true /\
  endswith (String q "") (quoted q content) = true.
Proof.
  unfold quoted, endswith; simpl. rewrite Ascii.eqb_refl. split; [reflexivity |].
  rewrite rev_str_app. simpl. rewrite Ascii.eqb_refl. reflexivity.
Qed.

Lemma slice_quoted (q : ascii) (content : string) :
  slice_1_m1 (quoted q content) = content.
Proof.
  unfold quoted, slice_1_m1. rewrite rev_str_app. simpl.
  apply rev_str_involutive.
Qed.

Lemma has_char_quoted (c q : ascii) (content : string) :
  Ascii.eqb c q = false ->
  has_char c (quoted q content) = has_char c content.
Proof.
  intros H. unfold quoted.
  change (String q (content ++ String q "")) with (String q "" ++ (content ++ String q "")).
  rewrite !has_char_app. unfold has_char at 1 3; simpl. rewrite H. simpl.
  rewrite orb_false_r. reflexivity.
Qed.

Section Expressions.

Context {FT : FloatText}.

(** ** AddOrModifyColumn *)

Lemma add_modify_nth (data : Dataset) (new_col_name expression : string)
    (i : nat) (row : Record) :
  nth_error data i = Some row ->
  nth_error (transform_add_modify_column data new_col_name expression) i =
  Some (add_modify_row new_col_name expression row).
Proof.
  intros H. unfold transform_add_modify_column.
  destruct data as [| r data]; [destruct i; discriminate |].
  apply map_nth_error, H.
Qed.


(** C5, as amended.  An expression wrapped in double or in single quotes
    whose content holds neither [*] nor [+] sets the new field to the
    content, the quotes taken off.  (The quotes are looked at last, after
    the [+] and [*] rules.) *)
Theorem quoted_literal_result
    (data : Dataset) (new_col_name : string) (q : ascii) (content : string)
    (i : nat) (row : Record) :
  nth_error data i = Some row ->
  q = dquote \/ q = squote ->
  has_char "*" content = false ->
  has_char "+" content = false ->
  nth_error (transform_add_modify_column data new_col_name (quoted q content)) i =
  Some (dict_set new_col_name (VStr content) row).
Proof.
  intros Hi Hq Hm Hp.
  rewrite (add_modify_nth _ _ _ _ _ Hi).
  assert (Hp' : has_char "+" (quoted q content) = false).
  { rewrite has_char_quoted; [exact Hp | destruct Hq; subst; reflexivity]. }
  assert (Hm' : has_char "*" (quoted q content) = false).
  { rewrite has_char_quoted; [exact Hm | destruct Hq; subst; reflexivity]. }
  destruct (quoted_wrapped q content) as [Hs He].
  unfold add_modify_row, eval_expression, concat_rule, arith_rule, is_quoted.
  rewrite Hp', Hm'. cbn [andb orb].
  destruct Hq; subst q; rewrite Hs, He; cbn [andb orb];
    rewrite ?orb_true_r, slice_quoted; reflexivity.
Qed.

(** C7, as amended.  For an expression that the arithmetic rule takes
    (it holds [*], or the text between its first and second [+] holds a
    digit, and the concatenation rule does not apply), split at the first
    [*], or at the first [+] when there is no [*]: a missing field gives
    Null; otherwise the field value and the literal are both coerced; two
    Integers give the Integer product or sum, a Float with a number gives
    a Float, or Null when the Integer operand is too large for a Float;
    an operand that is not a number after coercion gives Null. *)
Theorem arithmetic_expression_result
    (data : Dataset) (new_col_name expression : string) (i : nat) (row : Record) :
  nth_error data i = Some row ->
  concat_rule expression = false ->
  arith_rule expression = true ->
  exists op left right new_value,
    op = (if has_char "*" expression then OpMul else OpAdd) /\
    cut (op_symbol op) expression = (left, Some right) /\
    nth_error (transform_add_modify_column data new_col_name expression) i =
      Some (dict_set new_col_name new_value row) /\
    match dict_get (strip left) row with
    | None => new_value = VNull
    | Some v =>
        match _try_convert_type v, _try_convert_type (VStr (strip right)) with
        | VInt a, VInt b => new_value = VInt (int_op op a b)
        | VInt a, VFloat g =>
            new_value = match int_to_float a with
                        | Ok f => VFloat (float_op op f g)
                        | Raise _ => VNull
                        end
        | VFloat f, VInt b =>
            new_value = match int_to_float b with
                        | Ok g => VFloat (float_op op f g)
                        | Raise _ => VNull
                        end
        | VFloat f, VFloat g => new_value = VFloat (float_op op f g)
        | _, _ => new_value = VNull
        end
    end.
Proof.
  intros Hi Hc Ha.
  set (op := if has_char "*" expression then OpMul else OpAdd).
  assert (Hop : op_char expression = Some op /\ has_char (op_symbol op) expression = true).
  { unfold op_char, op. unfold arith_rule in Ha.
    destruct (has_char "*" expression) eqn:Hm; [split; [reflexivity | exact Hm] |].
    simpl in Ha. apply andb_true_iff in Ha. destruct Ha as [Hp _].
    rewrite Hp. split; [reflexivity | exact Hp]. }
  destruct Hop as [Hop Hsym].
  destruct (cut_has_char _ _ Hsym) as (left & right & Hcut).
  exists op, left, right.
  rewrite (add_modify_nth _ _ _ _ _ Hi).
  unfold add_modify_row, eval_expression. rewrite Hc, Ha, Hop, Hcut.
  destruct (dict_get (strip left) row) as [v |].
  - destruct (_try_convert_type v) as [a | f | s |];
      destruct (_try_convert_type (VStr (strip right))) as [b | g | t |]; simpl;
        try (eexists; repeat split; reflexivity).
    + destruct (int_to_float a); simpl; eexists; repeat split; reflexivity.
    + destruct (int_to_float b); simpl; eexists; repeat split; reflexivity.
  - eexists; repeat split; reflexivity.
Qed.

End Expressions.

(** ** The stage loop *)

Lemma parse_rename_raise (pairs : list string) :
  existsb (fun p => negb (has_char ":" p)) pairs = true ->
  forall rename_map, parse_rename pairs rename_map = Raise ValueError.
Proof.
  induction pairs as [| p pairs IH]; simpl; [discriminate |].
  intros H rename_map. destruct (has_char ":" p) eqn:E; simpl in H.
  - destruct (cut_has_char _ _ E) as (a & b & ->). apply IH, H.
  - rewrite (cut_no_char _ _ E). reflexivity.
Qed.

Lemma parse_sort_raise (keys : list string) :
  existsb (fun p => negb (has_char ":" p)) keys = true ->
  parse_sort keys = Raise ValueError.
Proof.
  induction keys as [| p keys IH]; simpl; [discriminate |].
  intros H. destruct (has_char ":" p) eqn:E; simpl in H.
  - destruct (cut_has_char _ _ E) as (a & b & ->). rewrite (IH H). reflexivity.
  - rewrite (cut_no_char _ _ E). reflexivity.
Qed.

Section Stages.

Context {FT : FloatText}.

Lemma malformed_run_stage (data : Dataset) (trans_str : string) :
  malformed trans_str = true -> run_stage data trans_str = data.
Proof.
  unfold malformed, run_stage, apply_transform.
  destruct (cut ":" trans_str) as [action_text [params_str |]]; [| reflexivity].
  destruct (String.eqb (lower (strip action_text)) "select"); [discriminate |].
  destruct (String.eqb (lower (strip action_text)) "filter").
  { intros H.
    destruct (split_max "," 2 params_str) as [| a [| b [| c [| d l]]]];
      try reflexivity. discriminate. }
  destruct (String.eqb (lower (strip action_text)) "rename").
  { simpl. intros H. rewrite (parse_rename_raise _ H). reflexivity. }
  destruct (String.eqb (lower (strip action_text)) "sort").
  { simpl. intros H. rewrite (parse_sort_raise _ H). reflexivity. }
  simpl.
  destruct (String.eqb (lower (strip action_text)) "addcol"); [| reflexivity].
  intros ->. reflexivity.
Qed.

(** C6.  A stage whose transformation string is malformed hands on the
    Dataset it received, whatever that Dataset is, and the run goes on
    with the stages after it as if the stage were not listed. *)
Theorem malformed_stage_is_skipped (trans_str : string) :
  malformed trans_str = true ->
  forall data : Dataset,
    run_stage data trans_str = data /\
    forall before after : list string,
      run_pipeline data (before ++ trans_str :: after) =
      run_pipeline data (before ++ after).
Proof.
  intros H data. split; [apply malformed_run_stage, H |].
  intros before after. unfold run_pipeline.
  rewrite !fold_left_app. simpl. rewrite malformed_run_stage by exact H.
  reflexivity.
Qed.

End Stages.

(** * Further properties of the engine *)

(** ** Records, continued *)

Lemma dict_get_None_iff (k : string) (r : Record) :
  dict_get k r = None <-> ~ In k (map fst r).
Proof.
  induction r as [| [k1 v1] r IH]; simpl.
  - tauto.
  - destruct (String.eqb_spec k k1) as [-> | Hk].
    + split; [discriminate | intros H; contradiction H; left; reflexivity].
    + rewrite IH. split.
      * intros H [E | Hin]; [apply Hk; symmetry; exact E | exact (H Hin)].
      * intros H Hin. apply H. right. exact Hin.
Qed.

Lemma dict_get_In (k : string) (v : Value) (r : Record) :
  dict_get k r = Some v -> In (k, v) r.
Proof.
  induction r as [| [k1 v1] r IH]; simpl; [discriminate |].
  destruct (String.eqb_spec k k1) as [-> | Hk].
  - intros H. injection H as <-. left; reflexivity.
  - intros H. right. apply IH, H.
Qed.

Lemma keys_dict_set (k : string) (v : Value) (r : Record) :
  map fst (dict_set k v r) =
  if dict_mem k r then map fst r else (map fst r ++ [k])%list.
Proof.
  unfold dict_mem. induction r as [| [k1 v1] r IH]; simpl; [reflexivity |].
  destruct (String.eqb k k1); simpl; [reflexivity |].
  rewrite IH. destruct (dict_get k r); reflexivity.
Qed.

Lemma keys_dict_remove_incl (k x : string) (r : Record) :
  In x (map fst (dict_remove k r)) -> In x (map fst r).
Proof.
  induction r as [| [k1 v1] r IH]; simpl; [tauto |].
  destruct (String.eqb k k1); simpl; [tauto |].
  intros [E | H]; [left; exact E | right; apply IH, H].
Qed.

Lemma wf_dict_set (k : string) (v : Value) (r : Record) :
  wf_record r -> wf_record (dict_set k v r).
Proof.
  unfold wf_record. intros H. rewrite keys_dict_set. unfold dict_mem.
  destruct (dict_get k r) eqn:E; [exact H |].
  apply dict_get_None_iff in E.
  apply NoDup_rev in H. rewrite <- (rev_involutive (map fst r ++ [k])).
  apply NoDup_rev. rewrite rev_app_distr. simpl.
  constructor; [rewrite <- in_rev; exact E | exact H].
Qed.

Lemma wf_dict_remove (k : string) (r : Record) :
  wf_record r -> wf_record (dict_remove k r).
Proof.
  unfold wf_record. induction r as [| [k1 v1] r IH]; simpl; intros H.
  - constructor.
  - inversion H as [| x l Hx Hl]; subst.
    destruct (String.eqb k k1); simpl; [exact Hl |].
    constructor; [| apply IH, Hl].
    intros Hin. apply Hx. eapply keys_dict_remove_incl, Hin.
Qed.

Lemma dict_get_dict_remove_other (k k' : string) (r : Record) :
  k <> k' -> dict_get k (dict_remove k' r) = dict_get k r.
Proof.
  intros Hk. induction r as [| [k1 v1] r IH]; simpl; [reflexivity |].
  destruct (String.eqb_spec k' k1) as [-> | Hk1]; simpl.
  - destruct (String.eqb_spec k k1) as [-> | _]; [contradiction | reflexivity].
  - rewrite IH. reflexivity.
Qed.

Lemma dict_get_dict_remove_same (k : string) (r : Record) :
  wf_record r -> dict_get k (dict_remove k r) = None.
Proof.
  unfold wf_record. induction r as [| [k1 v1] r IH]; simpl; intros H; [reflexivity |].
  inversion H as [| x l Hx Hl]; subst.
  destruct (String.eqb_spec k k1) as [-> | Hk]; simpl.
  - apply dict_get_None_iff, Hx.
  - destruct (String.eqb_spec k k1) as [E | _]; [contradiction |].
    apply IH, Hl.
Qed.

Section MoreCoercion.

Context {FT : FloatText}.

(** ** Coercion, continued *)

(** X1.  Coercing twice is coercing once: a coerced value is a number, a
    Null, or a string that reads as no number. *)
Theorem try_convert_type_idempotent (value : Value) :
  _try_convert_type (_try_convert_type value) = _try_convert_type value.
Proof.
  destruct value as [z | f | s |]; try reflexivity.
  unfold _try_convert_type; simpl.
  destruct (int_of_str s) eqn:Ei; simpl; [reflexivity |].
  destruct (float_of_str s) eqn:Ef; simpl; [reflexivity |].
  rewrite Ei, Ef. reflexivity.
Qed.

(** X2.  A value that is still a String after coercion was that String
    before, and neither [int] nor [float] reads it. *)
Theorem try_convert_type_keeps_only_non_numeric_text (value : Value) (s : string) :
  _try_convert_type value = VStr s ->
  value = VStr s /\ int_of_str s = None /\ float_of_str s = None.
Proof.
  destruct value as [z | f | t |]; try discriminate.
  unfold _try_convert_type; simpl.
  destruct (int_of_str t) eqn:Ei; [discriminate |].
  destruct (float_of_str t) eqn:Ef; [discriminate |].
  intros H. injection H as <-. auto.
Qed.

Lemma preprocess_row_fold (r acc : Record) :
  NoDup (map fst acc ++ map fst r) ->
  fold_left (fun acc kv => dict_set (fst kv) (_try_convert_type (snd kv)) acc) r acc =
  (acc ++ map (fun kv => (fst kv, _try_convert_type (snd kv))) r)%list.
Proof.
  revert acc; induction r as [| [k v] r IH]; simpl; intros acc H.
  - rewrite app_nil_r. reflexivity.
  - assert (Hk : dict_get k acc = None).
    { apply dict_get_None_iff. intros Hin.
      apply NoDup_remove_2 in H. apply H, in_or_app. left. exact Hin. }
    rewrite (dict_set_new k _ acc Hk), IH.
    + rewrite <- app_assoc. reflexivity.
    + rewrite map_app. simpl. rewrite <- app_assoc. exact H.
Qed.

(** X3.  Loading coerces every value where it stands: the records, their
    field names and the order of the fields stay, each value is replaced by
    its coerced value. *)
Theorem preprocess_converts_each_value (data : Dataset) :
  Forall wf_record data ->
  _preprocess_data_types data =
  map (map (fun kv => (fst kv, _try_convert_type (snd kv)))) data.
Proof.
  intros H. unfold _preprocess_data_types.
  destruct data as [| r0 data0]; [reflexivity |].
  apply map_ext_in. intros r Hr.
  rewrite Forall_forall in H.
  apply (preprocess_row_fold r []). simpl. apply H, Hr.
Qed.

End MoreCoercion.

(** ** Select *)

Lemma select_fold_lookup (c : string) (row : Record) (cols : list string) (acc : Record) :
  dict_get c
    (fold_left (fun new_row col =>
                  match dict_get col row with
                  | Some v => dict_set col v new_row
                  | None => new_row
                  end) cols acc) =
  if existsb (String.eqb c) cols && dict_mem c row then dict_get c row
  else dict_get c acc.
Proof.
  unfold dict_mem. revert acc; induction cols as [| col cols IH]; simpl; intros acc.
  - reflexivity.
  - rewrite IH. destruct (String.eqb_spec c col) as [-> | Hc]; simpl.
    + destruct (dict_get col row) as [v |] eqn:E.
      * rewrite dict_get_dict_set, String.eqb_refl.
        destruct (existsb (String.eqb col) cols); reflexivity.
      * rewrite andb_false_r. reflexivity.
    + destruct (dict_get col row) as [v |] eqn:E; [| reflexivity].
      rewrite dict_get_dict_set.
      destruct (String.eqb_spec c col) as [E' | _]; [contradiction | reflexivity].
Qed.

Lemma select_row_get (columns_to_keep : list string) (row : Record) (c : string) :
  dict_get c (select_row columns_to_keep row) =
  if existsb (String.eqb c) columns_to_keep then dict_get c row else None.
Proof.
  unfold select_row. rewrite select_fold_lookup. unfold dict_mem. simpl.
  destruct (existsb (String.eqb c) columns_to_keep); simpl; [| reflexivity].
  destruct (dict_get c row); reflexivity.
Qed.


Lemma select_fold_keys (row : Record) (cols : list string) (acc : Record) :
  NoDup (map fst acc ++ cols) ->
  map fst
    (fold_left (fun new_row col =>
                  match dict_get col row with
                  | Some v => dict_set col v new_row
                  | None => new_row
                  end) cols acc) =
  (map fst acc ++ filter (fun col => dict_mem col row) cols)%list.
Proof.
  unfold dict_mem. revert acc; induction cols as [| col cols IH]; simpl; intros acc H.
  - rewrite app_nil_r. reflexivity.
  - assert (Hk : dict_get col acc = None).
    { apply dict_get_None_iff. intros Hin.
      apply NoDup_remove_2 in H. apply H, in_or_app. left. exact Hin. }
    destruct (dict_get col row) as [v |] eqn:E.
    + rewrite IH.
      * rewrite (dict_set_new col v acc Hk), map_app. simpl.
        rewrite <- app_assoc. reflexivity.
      * rewrite (dict_set_new col v acc Hk), map_app. simpl.
        rewrite <- app_assoc. exact H.
    + apply IH. apply NoDup_remove_1 in H. exact H.
Qed.

(** X5.  The fields of a projected record stand in the order in which the
    columns were requested, whatever their order in the original record. *)
Theorem select_row_order (columns_to_keep : list string) (row : Record) :
  NoDup columns_to_keep ->
  map fst (select_row columns_to_keep row) =
  filter (fun col => dict_mem col row) columns_to_keep.
Proof.
  intros H. unfold select_row. rewrite select_fold_keys; [reflexivity | exact H].
Qed.

Lemma select_row_empty_iff (columns_to_keep : list string) (row : Record) :
  select_row columns_to_keep row = [] <->
  forall c, In c columns_to_keep -> dict_get c row = None.
Proof.
  split.
  - intros E c Hc.
    pose proof (select_row_get columns_to_keep row c) as H.
    rewrite E in H. simpl in H.
    destruct (existsb (String.eqb c) columns_to_keep) eqn:Ex; [symmetry; exact H |].
    exfalso. assert (Ht : existsb (String.eqb c) columns_to_keep = true).
    { apply existsb_exists. exists c. split; [exact Hc | apply String.eqb_refl]. }
    rewrite Ht in Ex. discriminate.
  - intros H. destruct (select_row columns_to_keep row) as [| [k v] r] eqn:E; [reflexivity |].
    exfalso.
    pose proof (select_row_get columns_to_keep row k) as Hl.
    rewrite E in Hl. simpl in Hl. rewrite String.eqb_refl in Hl.
    destruct (existsb (String.eqb k) columns_to_keep) eqn:Ex; [| discriminate].
    apply existsb_exists in Ex. destruct Ex as (c & Hc & Heq).
    apply String.eqb_eq in Heq. subst c.
    rewrite (H k Hc) in Hl. discriminate.
Qed.

(** X6.  With at least one requested column, the output of a selection is
    the projection of the input records that have at least one of the
    requested columns, in input order; a record with none of them is
    dropped, so no output record is empty. *)
Theorem select_keeps_rows_with_a_column
    (data : Dataset) (columns_to_keep : list string) :
  columns_to_keep <> [] ->
  transform_select_columns data columns_to_keep =
  map (select_row columns_to_keep)
      (filter (fun row => existsb (fun c => dict_mem c row) columns_to_keep) data).
Proof.
  intros Hc. unfold transform_select_columns.
  destruct columns_to_keep as [| c0 cols]; [contradiction Hc; reflexivity |].
  assert (Hgen : forall d,
             filter (fun new_row : Record => match new_row with [] => false | _ => true end)
                    (map (select_row (c0 :: cols)) d) =
             map (select_row (c0 :: cols))
                 (filter (fun row => existsb (fun c => dict_mem c row) (c0 :: cols)) d)).
  { induction d as [| r d IH]; [reflexivity |].
    cbn [map filter]. rewrite IH.
    destruct (select_row (c0 :: cols) r) as [| kv sr] eqn:E.
    - assert (Hn : existsb (fun c => dict_mem c r) (c0 :: cols) = false).
      { destruct (existsb (fun c => dict_mem c r) (c0 :: cols)) eqn:Ex; [| reflexivity].
        apply existsb_exists in Ex. destruct Ex as (c & Hin & Hm).
        unfold dict_mem in Hm.
        rewrite (proj1 (select_row_empty_iff (c0 :: cols) r) E c Hin) in Hm.
        discriminate. }
      rewrite Hn. reflexivity.
    - assert (Hy : existsb (fun c => dict_mem c r) (c0 :: cols) = true).
      { destruct (existsb (fun c => dict_mem c r) (c0 :: cols)) eqn:Ex; [reflexivity |].
        assert (Hemp : select_row (c0 :: cols) r = []).
        { apply select_row_empty_iff. intros c Hin.
          destruct (dict_get c r) eqn:Eg; [| reflexivity].
          assert (Ht : existsb (fun c => dict_mem c r) (c0 :: cols) = true).
          { apply existsb_exists. exists c. split; [exact Hin |].
            unfold dict_mem. rewrite Eg. reflexivity. }
          rewrite Ht in Ex. discriminate. }
        rewrite Hemp in E. discriminate. }
      rewrite Hy. cbn [map]. rewrite E. reflexivity. }
  destruct data as [| r data]; [reflexivity |].
  apply Hgen.
Qed.

(** ** Text, continued *)

Lemma startswith_spec (p s : string) :
  startswith p s = true <-> exists t, s = p ++ t.
Proof.
  revert s; induction p as [| a p IH]; intros s; simpl.
  - split; [intros _; exists s; reflexivity | reflexivity].
  - destruct s as [| b s].
    + split; [discriminate | intros [t Ht]; discriminate].
    + rewrite andb_true_iff, Ascii.eqb_eq, IH. split.
      * intros [-> [t ->]]. exists t. reflexivity.
      * intros [t Ht]. injection Ht as -> ->. split; [reflexivity | exists t; reflexivity].
Qed.

Lemma contains_spec (p s : string) :
  contains p s = true <-> exists a b, s = a ++ p ++ b.
Proof.
  induction s as [| c s IH].
  - simpl. rewrite orb_false_r, startswith_spec. split.
    + intros [t Ht]. exists "", t. exact Ht.
    + intros (a & b & H). destruct a as [| x a]; [| discriminate].
      exists b. exact H.
  - cbn [contains]. rewrite orb_true_iff, startswith_spec, IH. split.
    + intros [[t Ht] | (a & b & ->)].
      * exists "", t. exact Ht.
      * exists (String c a), b. reflexivity.
    + intros (a & b & H). destruct a as [| x a].
      * left. exists b. exact H.
      * right. simpl in H. injection H as -> ->. exists a, b. reflexivity.
Qed.

Lemma append_assoc (a b c : string) : (a ++ b) ++ c = a ++ (b ++ c).
Proof. induction a as [| x a IH]; simpl; [reflexivity | rewrite IH; reflexivity]. Qed.

Lemma rev_str_acc (s acc : string) : rev_str acc s = rev_str "" s ++ acc.
Proof.
  revert acc; induction s as [| c s IH]; intros acc; simpl; [reflexivity |].
  rewrite (IH (String c acc)), (IH (String c "")).
  rewrite append_assoc. reflexivity.
Qed.

Lemma rev_str_append (a b : string) :
  rev_str "" (a ++ b) = rev_str "" b ++ rev_str "" a.
Proof. rewrite rev_str_app. apply rev_str_acc. Qed.

Lemma endswith_spec (p s : string) :
  endswith p s = true <-> exists t, s = t ++ p.
Proof.
  unfold endswith. rewrite startswith_spec. split.
  - intros [t Ht]. exists (rev_str "" t).
    rewrite <- (rev_str_involutive s), Ht, rev_str_append, rev_str_involutive.
    reflexivity.
  - intros [t ->]. exists (rev_str "" t). apply rev_str_append.
Qed.

(** ** The order of values, continued *)

Lemma exact_compare_Z (a b : Z) :
  exact_compare (Z_to_SF a) (Z_to_SF b) = Some (a ?= b).
Proof.
  destruct a, b; cbv [exact_compare Z_to_SF SF_finite_parts];
    change (Z.min 0 0) with 0; change (0 - 0) with 0; change (2 ^ 0) with 1;
    rewrite ?Z.mul_1_r; reflexivity.
Qed.

Lemma py_compare_integers (a b : Z) :
  py_compare (VInt a) (VInt b) = Ok (Some (a ?= b)).
Proof. unfold py_compare, num_of. rewrite exact_compare_Z. reflexivity. Qed.

Lemma py_eq_integers (a b : Z) : py_eq (VInt a) (VInt b) = (a =? b).
Proof.
  unfold py_eq, num_of. rewrite exact_compare_Z.
  destruct (Z.eqb_spec a b) as [-> | Hne].
  - rewrite Z.compare_refl. reflexivity.
  - destruct (a ?= b) eqn:E; try reflexivity.
    apply Z.compare_eq_iff in E. contradiction.
Qed.

Lemma filter_test_integers (operator : string) (a b : Z) :
  In operator [">"; "<"; ">="; "<="; "=="; "!="] ->
  filter_test operator (VInt a) (VInt b) = Ok (int_rel operator a b).
Proof.
  intros Hop. simpl in Hop.
  destruct Hop as [<- | [<- | [<- | [<- | [<- | [<- | []]]]]]];
    unfold filter_test, int_rel, elif, and_then, py_gt, py_lt, py_ge, py_le, py_ne;
    cbn [String.eqb Ascii.eqb Bool.eqb andb];
    rewrite ?py_compare_integers, ?py_eq_integers; cbn [bind];
    unfold Z.gtb, Z.ltb, Z.geb, Z.leb;
    try (destruct (a ?= b); reflexivity);
    destruct (a =? b); reflexivity.
Qed.

Section MoreFilter.

Context {FT : FloatText}.

(** ** Filter, continued *)

Lemma transform_filter_rows_filter
    (data : Dataset) (column_name operator value_to_compare : string) :
  transform_filter_rows data column_name operator value_to_compare =
  filter (filter_match column_name operator (_try_convert_type (VStr value_to_compare)))
         data.
Proof. destruct data; reflexivity. Qed.

Lemma filter_none {A : Type} (f : A -> bool) (l : list A) :
  (forall x, In x l -> f x = false) -> filter f l = [].
Proof.
  induction l as [| x l IH]; simpl; intros H; [reflexivity |].
  rewrite (H x (or_introl eq_refl)). apply IH. intros y Hy. apply H. right. exact Hy.
Qed.

Lemma filter_filter_same {A : Type} (f : A -> bool) (l : list A) :
  filter f (filter f l) = filter f l.
Proof.
  induction l as [| x l IH]; simpl; [reflexivity |].
  destruct (f x) eqn:E; simpl; [rewrite E, IH; reflexivity | exact IH].
Qed.

Lemma filter_filter_comm {A : Type} (f g : A -> bool) (l : list A) :
  filter f (filter g l) = filter g (filter f l).
Proof.
  induction l as [| x l IH]; simpl; [reflexivity |].
  destruct (g x) eqn:Eg, (f x) eqn:Ef; simpl; rewrite ?Eg, ?Ef, IH; reflexivity.
Qed.

(** X7.  The output of a filter is made of input records that have the
    column, in their input order; no record is changed or added. *)
Theorem filter_keeps_rows_with_column
    (data : Dataset) (column_name operator value_to_compare : string) :
  exists keep : Record -> bool,
    transform_filter_rows data column_name operator value_to_compare = filter keep data /\
    forall row, keep row = true -> dict_get column_name row <> None.
Proof.
  exists (filter_match column_name operator (_try_convert_type (VStr value_to_compare))).
  split; [apply transform_filter_rows_filter |].
  intros row. unfold filter_match.
  destruct (dict_get column_name row); [discriminate | discriminate].
Qed.

(** X8.  An operator that is not one of the nine known ones matches no
    record: the output is empty. *)
Theorem filter_unknown_operator_matches_nothing
    (data : Dataset) (column_name operator value_to_compare : string) :
  ~ In operator known_operators ->
  transform_filter_rows data column_name operator value_to_compare = [].
Proof.
  intros Hop. rewrite transform_filter_rows_filter. apply filter_none.
  intros row _. unfold filter_match.
  destruct (dict_get column_name row) as [actual |]; [| reflexivity].
  assert (Hne : forall o, In o known_operators -> String.eqb operator o = false).
  { intros o Ho. apply String.eqb_neq. intros ->. exact (Hop Ho). }
  unfold filter_test, known_operators in *.
  rewrite !Hne by (simpl; tauto). reflexivity.
Qed.

(** X9.  On an Integer field and a literal that reads as an integer, the
    six comparison operators mean the comparison of the two integers: a
    record passes exactly when its integer stands in that relation to the
    literal's. *)
Theorem filter_compares_integers
    (data : Dataset) (column_name operator value_to_compare : string)
    (row : Record) (a b : Z) :
  dict_get column_name row = Some (VInt a) ->
  int_of_str value_to_compare = Some b ->
  In operator [">"; "<"; ">="; "<="; "=="; "!="] ->
  (In row (transform_filter_rows data column_name operator value_to_compare) <->
   In row data /\ int_rel operator a b = true).
Proof.
  intros Hget Hlit Hop.
  rewrite transform_filter_rows_filter, filter_In.
  assert (Hc : _try_convert_type (VStr value_to_compare) = VInt b).
  { unfold _try_convert_type; simpl. rewrite Hlit. reflexivity. }
  rewrite Hc. unfold filter_match. rewrite Hget.
  rewrite (filter_test_integers operator a b Hop). tauto.
Qed.

Lemma filter_test_text_operator (operator : string) (actual comp_value : Value) :
  In operator ["contains"; "startswith"; "endswith"] ->
  filter_test operator actual comp_value =
  Ok (match actual, comp_value with
      | VStr s, VStr p =>
          if String.eqb operator "contains" then contains p s
          else if String.eqb operator "startswith" then startswith p s
          else endswith p s
      | _, _ => false
      end).
Proof.
  intros Hop. simpl in Hop.
  destruct Hop as [<- | [<- | [<- | []]]];
    unfold filter_test, elif, and_then;
    cbn [String.eqb Ascii.eqb Bool.eqb andb bind];
    destruct actual, comp_value; cbn [bind];
    try reflexivity;
    match goal with
    | |- context [contains ?p ?s] => destruct (contains p s); reflexivity
    | |- context [startswith ?p ?s] => destruct (startswith p s); reflexivity
    | |- context [endswith ?p ?s] => destruct (endswith p s); reflexivity
    end.
Qed.

(** X10.  On a String field and a literal that stays a String, [contains],
    [startswith] and [endswith] mean what they say: a record passes exactly
    when the literal is a part, the beginning or the end of the field's
    text. *)
Theorem filter_text_operators
    (data : Dataset) (column_name value_to_compare : string) (row : Record) (s : string) :
  dict_get column_name row = Some (VStr s) ->
  _try_convert_type (VStr value_to_compare) = VStr value_to_compare ->
  (In row (transform_filter_rows data column_name "contains" value_to_compare) <->
   In row data /\ exists a b, s = a ++ value_to_compare ++ b) /\
  (In row (transform_filter_rows data column_name "startswith" value_to_compare) <->
   In row data /\ exists b, s = value_to_compare ++ b) /\
  (In row (transform_filter_rows data column_name "endswith" value_to_compare) <->
   In row data /\ exists a, s = a ++ value_to_compare).
Proof.
  intros Hget Hlit.
  rewrite !transform_filter_rows_filter, !filter_In, Hlit.
  unfold filter_match. rewrite Hget.
  rewrite !filter_test_text_operator by (simpl; tauto).
  cbn [String.eqb Ascii.eqb Bool.eqb andb].
  rewrite contains_spec, startswith_spec, endswith_spec. tauto.
Qed.

(** X11.  A literal that reads as a number never matches under
    [contains], [startswith] or [endswith], not even on a field whose text
    holds the same digits: the output is empty. *)
Theorem filter_numeric_literal_matches_no_text
    (data : Dataset) (column_name operator value_to_compare : string) :
  is_numeric (_try_convert_type (VStr value_to_compare)) = true ->
  In operator ["contains"; "startswith"; "endswith"] ->
  transform_filter_rows data column_name operator value_to_compare = [].
Proof.
  intros Hnum Hop. rewrite transform_filter_rows_filter. apply filter_none.
  intros row _. unfold filter_match.
  destruct (dict_get column_name row) as [actual |]; [| reflexivity].
  rewrite (filter_test_text_operator _ _ _ Hop).
  destruct actual, (_try_convert_type (VStr value_to_compare));
    try reflexivity; discriminate Hnum.
Qed.

(** X12.  Filters compose as conditions do: applying the same filter
    twice is applying it once, and two filters give the same output in
    either order. *)
Theorem filter_idempotent_and_commutes
    (data : Dataset) (c1 o1 v1 c2 o2 v2 : string) :
  transform_filter_rows (transform_filter_rows data c1 o1 v1) c1 o1 v1 =
    transform_filter_rows data c1 o1 v1 /\
  transform_filter_rows (transform_filter_rows data c1 o1 v1) c2 o2 v2 =
    transform_filter_rows (transform_filter_rows data c2 o2 v2) c1 o1 v1.
Proof.
  rewrite !transform_filter_rows_filter. split.
  - apply filter_filter_same.
  - apply filter_filter_comm.
Qed.

End MoreFilter.

(** ** Rename, continued *)

Lemma transform_rename_columns_map (data : Dataset) (rename_map : list (string * string)) :
  transform_rename_columns data rename_map = map (rename_row rename_map) data.
Proof.
  unfold transform_rename_columns.
  destruct data as [| r data]; [reflexivity |].
  destruct rename_map as [| p m]; [| reflexivity].
  unfold rename_row. simpl. rewrite map_id. reflexivity.
Qed.

Lemma rename_pair_lookup (r : Record) (old new : string) (v : Value) (k : string) :
  wf_record r ->
  dict_get old r = Some v ->
  dict_get k (rename_pair r (old, new)) =
  if String.eqb k new then Some v
  else if String.eqb k old then None
  else dict_get k r.
Proof.
  intros Hwf Hv. unfold rename_pair. rewrite Hv, dict_get_dict_set.
  destruct (String.eqb k new); [reflexivity |].
  destruct (String.eqb_spec k old) as [-> | Hk].
  - apply dict_get_dict_remove_same, Hwf.
  - apply dict_get_dict_remove_other, Hk.
Qed.

Lemma wf_rename_pair (r : Record) (p : string * string) :
  wf_record r -> wf_record (rename_pair r p).
Proof.
  destruct p as [old new]. unfold rename_pair. intros H.
  destruct (dict_get old r); [| exact H].
  apply wf_dict_set, wf_dict_remove, H.
Qed.

Lemma wf_rename_row (m : list (string * string)) (r : Record) :
  wf_record r -> wf_record (rename_row m r).
Proof.
  unfold rename_row. revert r; induction m as [| p m IH]; simpl; intros r H.
  - exact H.
  - apply IH, wf_rename_pair, H.
Qed.

(** X13.  After a rename of one pair whose old field is present, the
    record answers every lookup as follows: the new name gives the old
    field's value (whatever the new name held before), the old name gives
    nothing, and every other name gives what it gave before. *)
Theorem rename_lookup
    (data : Dataset) (old new : string) (i : nat) (r : Record) (v : Value) :
  nth_error data i = Some r ->
  wf_record r ->
  dict_get old r = Some v ->
  exists r',
    nth_error (transform_rename_columns data [(old, new)]) i = Some r' /\
    forall k,
      dict_get k r' =
      if String.eqb k new then Some v
      else if String.eqb k old then None
      else dict_get k r.
Proof.
  intros Hi Hwf Hv. exists (rename_pair r (old, new)). split.
  - rewrite transform_rename_columns_map.
    apply (map_nth_error (rename_row [(old, new)]) i data Hi).
  - intros k. apply rename_pair_lookup; assumption.
Qed.

Lemma rename_row_other (m : list (string * string)) (r : Record) (k : string) :
  (forall o n, In (o, n) m -> k <> o /\ k <> n) ->
  dict_get k (rename_row m r) = dict_get k r.
Proof.
  unfold rename_row. revert r; induction m as [| [o n] m IH]; simpl; intros r H.
  - reflexivity.
  - rewrite IH by (intros o' n' Hin; apply H; right; exact Hin).
    destruct (H o n (or_introl eq_refl)) as [Ho Hn].
    unfold rename_pair. destruct (dict_get o r) as [v |]; [| reflexivity].
    rewrite dict_get_dict_set.
    destruct (String.eqb_spec k n) as [E | _]; [contradiction |].
    apply dict_get_dict_remove_other, Ho.
Qed.

(** X14.  A rename touches only the names it lists: a field whose name is
    neither an old nor a new name of the map has the same value in the
    output record as in the input record, and the Dataset keeps its
    number of records. *)
Theorem rename_keeps_other_fields
    (data : Dataset) (rename_map : list (string * string)) (k : string) :
  (forall o n, In (o, n) rename_map -> k <> o /\ k <> n) ->
  List.length (transform_rename_columns data rename_map) = List.length data /\
  forall i r, nth_error data i = Some r ->
    exists r',
      nth_error (transform_rename_columns data rename_map) i = Some r' /\
      dict_get k r' = dict_get k r.
Proof.
  intros H. rewrite transform_rename_columns_map. split.
  - apply length_map.
  - intros i r Hi. exists (rename_row rename_map r). split.
    + apply (map_nth_error (rename_row rename_map) i data Hi).
    + apply rename_row_other, H.
Qed.

Lemma rename_row_missing (m : list (string * string)) (r : Record) :
  (forall o n, In (o, n) m -> dict_get o r = None) ->
  rename_row m r = r.
Proof.
  unfold rename_row. induction m as [| [o n] m IH]; simpl; intros H.
  - reflexivity.
  - rewrite (H o n (or_introl eq_refl)). apply IH.
    intros o' n' Hin. apply (H o' n'). right. exact Hin.
Qed.

(** X15.  A rename none of whose old names is a field of any record
    returns the Dataset as it is. *)
Theorem rename_missing_names_is_noop
    (data : Dataset) (rename_map : list (string * string)) :
  (forall r o n, In r data -> In (o, n) rename_map -> dict_get o r = None) ->
  transform_rename_columns data rename_map = data.
Proof.
  intros H. rewrite transform_rename_columns_map.
  rewrite <- (map_id data) at 2. apply map_ext_in.
  intros r Hr. apply rename_row_missing. intros o n. apply H, Hr.
Qed.

(** X16.  Renaming a field to a fresh name and back gives a record that
    answers every lookup as the original did; the field itself has moved
    to the end of the record. *)
Theorem rename_there_and_back
    (data : Dataset) (a b : string) (i : nat) (r : Record) (v : Value) :
  nth_error data i = Some r ->
  wf_record r ->
  dict_get a r = Some v ->
  dict_get b r = None ->
  exists r',
    nth_error (transform_rename_columns data [(a, b); (b, a)]) i = Some r' /\
    (forall k, dict_get k r' = dict_get k r) /\
    r' = (dict_remove a r ++ [(a, v)])%list.
Proof.
  intros Hi Hwf Ha Hb.
  assert (Hab : a <> b) by (intros ->; rewrite Ha in Hb; discriminate).
  set (r1 := rename_pair r (a, b)).
  assert (Hb1 : dict_get b r1 = Some v).
  { unfold r1. rewrite (rename_pair_lookup r a b v b Hwf Ha), String.eqb_refl.
    reflexivity. }
  assert (Hwf1 : wf_record r1) by (apply wf_rename_pair, Hwf).
  exists (rename_pair r1 (b, a)). split; [| split].
  - rewrite transform_rename_columns_map.
    apply (map_nth_error (rename_row [(a, b); (b, a)]) i data Hi).
  - intros k. rewrite (rename_pair_lookup r1 b a v k Hwf1 Hb1).
    destruct (String.eqb_spec k a) as [-> | Hka]; [symmetry; exact Ha |].
    destruct (String.eqb_spec k b) as [-> | Hkb]; [symmetry; exact Hb |].
    unfold r1. rewrite (rename_pair_lookup r a b v k Hwf Ha).
    destruct (String.eqb_spec k b) as [E | _]; [contradiction |].
    destruct (String.eqb_spec k a) as [E | _]; [contradiction | reflexivity].
  - assert (Hrem : dict_get b (dict_remove a r) = None).
    { rewrite dict_get_dict_remove_other; [exact Hb | intros E; apply Hab; symmetry; exact E]. }
    assert (E1 : r1 = (dict_remove a r ++ [(b, v)])%list).
    { unfold r1, rename_pair. rewrite Ha. apply dict_set_new, Hrem. }
    unfold rename_pair at 1. rewrite Hb1.
    assert (E2 : dict_remove b r1 = dict_remove a r).
    { rewrite E1. clear - Hrem. induction (dict_remove a r) as [| [k1 v1] l IH]; simpl.
      - rewrite String.eqb_refl. reflexivity.
      - simpl in Hrem. destruct (String.eqb b k1); [discriminate |].
        rewrite IH by exact Hrem. reflexivity. }
    rewrite E2. apply dict_set_new. apply dict_get_dict_remove_same, Hwf.
Qed.

(** ** Sort, continued *)

Lemma row_lt_false_class (col : string) (a b : Record) :
  row_lt col b a = Ok false ->
  next_ok (class_of (row_get col a)) (class_of (row_get col b)).
Proof.
  unfold row_lt, key_lt, sort_key, next_ok; simpl.
  destruct (row_get col a), (row_get col b); simpl; intros H;
    try (left; reflexivity); try (right; reflexivity); discriminate H.
Qed.

Lemma row_lt_raises_TypeError (col : string) (a b : Record) (e : exn) :
  row_lt col a b = Raise e -> e = TypeError.
Proof.
  unfold row_lt, key_lt, sort_key; simpl.
  destruct (row_get col a), (row_get col b); simpl; intros H;
    try discriminate H;
    try (injection H as <-; reflexivity);
    match type of H with
    | context [if ?c then _ else _] => destruct c; simpl in H
    end;
    try discriminate H;
    unfold py_lt, py_compare in H; simpl in H;
    match type of H with
    | context [exact_compare ?x ?y] => destruct (exact_compare x y); simpl in H
    | _ => idtac
    end; try discriminate H; injection H as <-; reflexivity.
Qed.

Lemma Sorted_weaken {A : Type} (R R2 : A -> A -> Prop) (l : list A) :
  (forall a b, R a b -> R2 a b) -> Sorted R l -> Sorted R2 l.
Proof.
  intros HR. induction 1 as [| x l Hs IH Hx]; constructor; [exact IH |].
  destruct Hx; constructor. apply HR. assumption.
Qed.

Lemma next_ok_trans (c1 c2 c3 : key_class) :
  next_ok c1 c2 -> next_ok c2 c3 -> next_ok c1 c3.
Proof.
  unfold next_ok. intros [-> | ->] [-> | ->]; auto.
Qed.

Lemma stable_sort_no_mixed (col : string) (l s : Dataset) (r1 r2 : Record) :
  stable_sort (row_lt col) l = Ok s ->
  In r1 s -> In r2 s ->
  is_numeric (row_get col r1) = true -> is_str (row_get col r2) = true ->
  False.
Proof.
  intros Hs H1 H2 N1 T2.
  apply (stable_sort_Sorted _ (row_lt col) (fun x y => key_lt_asym _ _)) in Hs.
  apply (Sorted_weaken _
           (fun a b => next_ok (class_of (row_get col a)) (class_of (row_get col b))))
    in Hs; [| intros a b; apply row_lt_false_class].
  apply Sorted_StronglySorted in Hs;
    [| intros x y z; apply next_ok_trans].
  apply In_nth_error in H1, H2. destruct H1 as [i Hi], H2 as [j Hj].
  assert (C1 : class_of (row_get col r1) = KNumber)
    by (destruct (row_get col r1); try discriminate; reflexivity).
  assert (C2 : class_of (row_get col r2) = KText)
    by (destruct (row_get col r2); try discriminate; reflexivity).
  destruct (PeanoNat.Nat.lt_trichotomy i j) as [Hlt | [Heq | Hgt]].
  - pose proof (StronglySorted_nth _ _ _ Hs i j r1 r2 Hlt Hi Hj) as H.
    cbv beta in H. rewrite C1, C2 in H. destruct H; discriminate.
  - subst j. rewrite Hi in Hj. injection Hj as ->. rewrite C1 in C2. discriminate.
  - pose proof (StronglySorted_nth _ _ _ Hs j i r2 r1 Hgt Hj Hi) as H.
    cbv beta in H. rewrite C1, C2 in H. destruct H; discriminate.
Qed.

Section SortRaises.

Variable A : Type.
Variable lt : A -> A -> result bool.
Variable e0 : exn.

Hypothesis lt_raises : forall x y e, lt x y = Raise e -> e = e0.

Lemma insert_sorted_raises (x : A) (l : list A) (e : exn) :
  insert_sorted lt x l = Raise e -> e = e0.
Proof.
  induction l as [| y l IH]; simpl; [discriminate |].
  destruct (lt y x) as [[|] | e1] eqn:E; simpl.
  - destruct (insert_sorted lt x l); simpl; [discriminate |].
    intros H. injection H as <-. apply IH. reflexivity.
  - discriminate.
  - intros H. injection H as <-. eapply lt_raises, E.
Qed.

Lemma stable_sort_raises (l : list A) (e : exn) :
  stable_sort lt l = Raise e -> e = e0.
Proof.
  induction l as [| x l IH]; simpl; [discriminate |].
  destruct (stable_sort lt l) as [s | e1]; simpl.
  - apply insert_sorted_raises.
  - intros H. injection H as <-. apply IH. reflexivity.
Qed.

Lemma list_sort_raises (reverse : bool) (l : list A) (e : exn) :
  list_sort lt reverse l = Raise e -> e = e0.
Proof.
  unfold list_sort. destruct reverse; [| apply stable_sort_raises].
  destruct (stable_sort lt (rev l)) as [s | e1] eqn:E; simpl; [discriminate |].
  intros H. injection H as <-. eapply stable_sort_raises, E.
Qed.

End SortRaises.

Lemma sort_passes_raises (keys : list (string * string)) (d : Dataset) (e : exn) :
  sort_passes d keys = Raise e -> e = TypeError.
Proof.
  revert d; induction keys as [| [col order] keys IH]; simpl; intros d; [discriminate |].
  destruct (list_sort (row_lt col) (String.eqb (lower order) "desc") d) as [d1 | e1] eqn:E;
    simpl.
  - apply IH.
  - intros H. injection H as <-.
    eapply (list_sort_raises _ (row_lt col) TypeError (row_lt_raises_TypeError col)), E.
Qed.

Lemma sort_passes_no_mixed
    (keys : list (string * string)) (d out : Dataset) (col dir : string) (r1 r2 : Record) :
  sort_passes d keys = Ok out ->
  In (col, dir) keys -> In r1 d -> In r2 d ->
  is_numeric (row_get col r1) = true -> is_str (row_get col r2) = true ->
  False.
Proof.
  revert d; induction keys as [| [c o] keys IH]; simpl; intros d H Hk H1 H2 N1 T2.
  - contradiction.
  - bind_inv H.
    assert (Hperm := list_sort_perm _ _ _ _ _ Ha).
    destruct Hk as [E | Hk].
    + injection E as -> ->. unfold list_sort in Ha.
      destruct (String.eqb (lower dir) "desc").
      * bind_inv Ha. apply (stable_sort_no_mixed col _ _ r1 r2 Ha0);
          try assumption;
          eapply Permutation_in;
            try (apply (stable_sort_perm _ _ _ _ Ha0)); apply in_rev;
            rewrite rev_involutive; assumption.
      * apply (stable_sort_no_mixed col _ _ r1 r2 Ha); try assumption;
          eapply Permutation_in; try exact Hperm; assumption.
    + apply (IH a H Hk); try assumption;
        eapply Permutation_in; try exact Hperm; assumption.
Qed.

(** X17.  A sort returns a Dataset whenever, for each key, any two
    records hold two numbers or two strings in the key's column, or one of
    them holds nothing there. *)
Theorem sort_returns_on_comparable_columns
    (data : Dataset) (sort_keys : list (string * string)) :
  (forall k r1 r2, In k sort_keys -> In r1 data -> In r2 data ->
     row_get (fst k) r1 = VNull \/ row_get (fst k) r2 = VNull
     \/ comparable_kinds (row_get (fst k) r1) (row_get (fst k) r2) = true) ->
  exists out, transform_sort_data data sort_keys = Ok out.
Proof.
  intros H. apply transform_sort_data_returns.
  intros k r1 r2 Hk H1 H2. apply row_lt_returns, H; assumption.
Qed.

(** X18.  A sort on a column in which one record holds a number and
    another holds a string raises [TypeError], whatever the other keys and
    the directions are. *)
Theorem sort_mixed_kinds_raises
    (data : Dataset) (sort_keys : list (string * string)) (col dir : string)
    (r1 r2 : Record) :
  In (col, dir) sort_keys ->
  In r1 data -> In r2 data ->
  is_numeric (row_get col r1) = true ->
  is_str (row_get col r2) = true ->
  transform_sort_data data sort_keys = Raise TypeError.
Proof.
  intros Hk H1 H2 N1 T2. unfold transform_sort_data.
  destruct data as [| r data]; [contradiction |].
  destruct sort_keys as [| k ks]; [contradiction |].
  destruct (sort_passes (r :: data) (rev (k :: ks))) as [out | e] eqn:E.
  - exfalso. apply (sort_passes_no_mixed _ _ _ col dir r1 r2 E); try assumption.
    apply in_rev in Hk. exact Hk.
  - apply sort_passes_raises in E. subst e. reflexivity.
Qed.

(** ** Text, once more *)

Lemma cut_app (sep : ascii) (a b : string) :
  has_char sep a = false -> cut sep (a ++ String sep b) = (a, Some b).
Proof.
  unfold has_char. induction a as [| x a IH]; simpl.
  - rewrite Ascii.eqb_refl. reflexivity.
  - rewrite (Ascii.eqb_sym sep x). destruct (Ascii.eqb x sep); simpl; [discriminate |].
    intros H. rewrite (IH H). reflexivity.
Qed.

Lemma wf_select_row (columns_to_keep : list string) (row : Record) :
  wf_record (select_row columns_to_keep row).
Proof.
  unfold select_row.
  assert (H : wf_record []) by constructor.
  revert H. generalize (@nil (string * Value)) as acc.
  induction columns_to_keep as [| c cols IH]; simpl; intros acc H; [exact H |].
  apply IH. destruct (dict_get c row); [apply wf_dict_set, H | exact H].
Qed.

Lemma Forall_filter_keep {A : Type} (P : A -> Prop) (f : A -> bool) (l : list A) :
  Forall P l -> Forall P (filter f l).
Proof.
  rewrite !Forall_forall. intros H x Hx. apply filter_In in Hx. apply H, Hx.
Qed.

Lemma transform_sort_data_perm
    (data : Dataset) (sort_keys : list (string * string)) (out : Dataset) :
  transform_sort_data data sort_keys = Ok out -> Permutation data out.
Proof.
  unfold transform_sort_data. intros H.
  destruct data as [| r data]; [injection H as <-; constructor |].
  destruct sort_keys as [| k ks]; [injection H as <-; apply Permutation_refl |].
  eapply sort_passes_perm, H.
Qed.

Section MoreExpressions.

Context {FT : FloatText}.

(** ** AddOrModifyColumn, continued *)

Lemma transform_add_modify_column_map (data : Dataset) (new_col_name expression : string) :
  transform_add_modify_column data new_col_name expression =
  map (add_modify_row new_col_name expression) data.
Proof. destruct data; reflexivity. Qed.

Lemma add_modify_row_sets (new_col_name expression : string) (row : Record) :
  exists v, add_modify_row new_col_name expression row = dict_set new_col_name v row.
Proof.
  unfold add_modify_row.
  destruct (eval_expression row expression) as [v | e]; eexists; reflexivity.
Qed.

(** X19.  Whatever the expression, AddOrModifyColumn gives back as many
    records as it got, and each output record is the input record with the
    one field set: the field is there, every other field has its value, a
    field that existed keeps its slot and a new field goes last. *)
Theorem add_modify_sets_one_field
    (data : Dataset) (new_col_name expression : string) :
  List.length (transform_add_modify_column data new_col_name expression) = List.length data /\
  forall i row, nth_error data i = Some row ->
    exists row' v,
      nth_error (transform_add_modify_column data new_col_name expression) i = Some row' /\
      dict_get new_col_name row' = Some v /\
      (forall k, k <> new_col_name -> dict_get k row' = dict_get k row) /\
      (forall j, dict_index new_col_name row = Some j ->
         dict_index new_col_name row' = Some j) /\
      (dict_get new_col_name row = None ->
         row' = (row ++ [(new_col_name, v)])%list).
Proof.
  rewrite transform_add_modify_column_map. split; [apply length_map |].
  intros i row Hi.
  destruct (add_modify_row_sets new_col_name expression row) as [v Hv].
  exists (add_modify_row new_col_name expression row), v.
  split; [apply (map_nth_error (add_modify_row new_col_name expression) i data Hi) |].
  rewrite Hv. repeat split.
  - rewrite dict_get_dict_set, String.eqb_refl. reflexivity.
  - intros k Hk. rewrite dict_get_dict_set.
    destruct (String.eqb_spec k new_col_name) as [E | _]; [contradiction | reflexivity].
  - intros j. apply dict_index_dict_set.
  - apply dict_set_new.
Qed.

(** X20.  An expression without [+], without [*] and not wrapped in
    quotes is a literal: every record gets the same value, the coerced
    text of the expression. *)
Theorem add_modify_bare_literal
    (data : Dataset) (new_col_name expression : string) :
  has_char "+" expression = false ->
  has_char "*" expression = false ->
  is_quoted expression = false ->
  transform_add_modify_column data new_col_name expression =
  map (dict_set new_col_name (_try_convert_type (VStr expression))) data.
Proof.
  intros Hp Hm Hq. rewrite transform_add_modify_column_map.
  apply map_ext. intros row.
  unfold add_modify_row, eval_expression, concat_rule, arith_rule.
  rewrite Hp, Hm, Hq. reflexivity.
Qed.

End MoreExpressions.

Section MoreStages.

Context {FT : FloatText}.

(** ** The stage loop, continued *)

(** X21.  Every stage maps the empty Dataset to the empty Dataset, and so
    does every pipeline. *)
Theorem stages_keep_empty_dataset (transforms : list string) :
  (forall trans_str, run_stage [] trans_str = []) /\
  run_pipeline [] transforms = [].
Proof.
  assert (H : forall trans_str, run_stage [] trans_str = []).
  { intros trans_str. unfold run_stage, apply_transform.
    destruct (cut ":" trans_str) as [action_text [params_str |]]; [| reflexivity].
    destruct (String.eqb (lower (strip action_text)) "select"); [reflexivity |].
    destruct (String.eqb (lower (strip action_text)) "filter").
    { destruct (map strip (split_max "," 2 params_str)) as [| a [| b [| c [| d l]]]];
        reflexivity. }
    destruct (String.eqb (lower (strip action_text)) "rename").
    { destruct (parse_rename (split "," params_str) []); reflexivity. }
    destruct (String.eqb (lower (strip action_text)) "sort").
    { destruct (parse_sort (split "," params_str)); reflexivity. }
    destruct (String.eqb (lower (strip action_text)) "addcol"); [| reflexivity].
    destruct (has_char "=" params_str); simpl; [| reflexivity].
    destruct (cut "=" params_str) as [n [e |]]; reflexivity. }
  split; [exact H |].
  unfold run_pipeline. induction transforms as [| t ts IH]; simpl; [reflexivity |].
  rewrite H. exact IH.
Qed.

Lemma run_stage_cases (data : Dataset) (trans_str : string) :
  run_stage data trans_str = data
  \/ (exists cols, run_stage data trans_str = transform_select_columns data cols)
  \/ (exists c o v, run_stage data trans_str = transform_filter_rows data c o v)
  \/ (exists m, run_stage data trans_str = transform_rename_columns data m)
  \/ (exists keys, transform_sort_data data keys = Ok (run_stage data trans_str))
  \/ (exists n e, run_stage data trans_str = transform_add_modify_column data n e).
Proof.
  unfold run_stage, apply_transform.
  destruct (cut ":" trans_str) as [action_text [params_str |]]; [| left; reflexivity].
  destruct (String.eqb (lower (strip action_text)) "select").
  { right; left. eexists; reflexivity. }
  destruct (String.eqb (lower (strip action_text)) "filter").
  { destruct (map strip (split_max "," 2 params_str)) as [| a [| b [| c [| d l]]]];
      try (left; reflexivity).
    right; right; left. do 3 eexists; reflexivity. }
  destruct (String.eqb (lower (strip action_text)) "rename").
  { destruct (parse_rename (split "," params_str) []) as [m | e]; simpl;
      [| left; reflexivity].
    right; right; right; left. eexists; reflexivity. }
  destruct (String.eqb (lower (strip action_text)) "sort").
  { destruct (parse_sort (split "," params_str)) as [keys | e]; simpl;
      [| left; reflexivity].
    destruct (transform_sort_data data keys) as [out | e] eqn:E; [| left; reflexivity].
    right; right; right; right; left. exists keys. exact E. }
  destruct (String.eqb (lower (strip action_text)) "addcol"); [| left; reflexivity].
  destruct (has_char "=" params_str); simpl; [| left; reflexivity].
  destruct (cut "=" params_str) as [n [e |]]; [| left; reflexivity].
  right; right; right; right; right. do 2 eexists; reflexivity.
Qed.

Lemma transform_select_columns_length (data : Dataset) (cols : list string) :
  (List.length (transform_select_columns data cols) <= List.length data)%nat.
Proof.
  unfold transform_select_columns.
  destruct data as [| r data]; [apply le_n |].
  destruct cols as [| c cols]; [apply le_n |].
  etransitivity; [apply filter_length_le |]. rewrite length_map. apply le_n.
Qed.

Lemma wf_transform_select_columns (data : Dataset) (cols : list string) :
  Forall wf_record data -> Forall wf_record (transform_select_columns data cols).
Proof.
  intros H. unfold transform_select_columns.
  destruct data as [| r data]; [constructor |].
  destruct cols as [| c cols]; [exact H |].
  apply Forall_filter_keep. apply Forall_forall. intros x Hx.
  apply in_map_iff in Hx. destruct Hx as (y & <- & _). apply wf_select_row.
Qed.

Lemma run_stage_length (data : Dataset) (trans_str : string) :
  (List.length (run_stage data trans_str) <= List.length data)%nat.
Proof.
  destruct (run_stage_cases data trans_str)
    as [E | [[cols E] | [(c & o & v & E) | [[m E] | [[keys E] | (n & e & E)]]]]].
  - rewrite E. apply le_n.
  - rewrite E. apply transform_select_columns_length.
  - rewrite E, transform_filter_rows_filter. apply filter_length_le.
  - rewrite E, transform_rename_columns_map, length_map. apply le_n.
  - apply transform_sort_data_perm, Permutation_length in E.
    rewrite E. apply le_n.
  - rewrite E, transform_add_modify_column_map, length_map. apply le_n.
Qed.

Lemma wf_run_stage (data : Dataset) (trans_str : string) :
  Forall wf_record data -> Forall wf_record (run_stage data trans_str).
Proof.
  intros H.
  destruct (run_stage_cases data trans_str)
    as [E | [[cols E] | [(c & o & v & E) | [[m E] | [[keys E] | (n & e & E)]]]]].
  - rewrite E. exact H.
  - rewrite E. apply wf_transform_select_columns, H.
  - rewrite E, transform_filter_rows_filter. apply Forall_filter_keep, H.
  - rewrite E, transform_rename_columns_map. apply Forall_forall.
    intros x Hx. apply in_map_iff in Hx. destruct Hx as (y & <- & Hy).
    rewrite Forall_forall in H. apply wf_rename_row, H, Hy.
  - apply transform_sort_data_perm in E.
    apply (Permutation_Forall E), H.
  - rewrite E, transform_add_modify_column_map. apply Forall_forall.
    intros x Hx. apply in_map_iff in Hx. destruct Hx as (y & <- & Hy).
    destruct (add_modify_row_sets n e y) as [v ->].
    rewrite Forall_forall in H. apply wf_dict_set, H, Hy.
Qed.

(** X22.  No pipeline adds a record: the output of a run has at most as
    many records as its input. *)
Theorem pipeline_never_adds_records (data : Dataset) (transforms : list string) :
  (List.length (run_pipeline data transforms) <= List.length data)%nat.
Proof.
  unfold run_pipeline. revert data.
  induction transforms as [| t ts IH]; simpl; intros data; [apply le_n |].
  etransitivity; [apply IH | apply run_stage_length].
Qed.

(** X23.  Field names stay unique: when no input record has two fields of
    one name, no record of any stage's or pipeline's output has. *)
Theorem pipeline_keeps_field_names_unique (data : Dataset) (transforms : list string) :
  Forall wf_record data ->
  Forall wf_record (run_pipeline data transforms).
Proof.
  unfold run_pipeline. revert data.
  induction transforms as [| t ts IH]; simpl; intros data H; [exact H |].
  apply IH, wf_run_stage, H.
Qed.

(** X24.  What follows the second comma of a filter string is the
    literal, commas included, and what follows the first [=] of an addcol
    string is the expression, further [=] included; the parts are stripped
    of white space around them. *)
Theorem stage_reads_filter_and_addcol
    (data : Dataset) (col op value name expression : string) :
  has_char "," col = false ->
  has_char "," op = false ->
  has_char "=" name = false ->
  run_stage data ("filter:" ++ col ++ "," ++ op ++ "," ++ value) =
    transform_filter_rows data (strip col) (strip op) (strip value) /\
  run_stage data ("addcol:" ++ name ++ "=" ++ expression) =
    transform_add_modify_column data (strip name) (strip expression).
Proof.
  intros Hc Ho Hn. split.
  - unfold run_stage, apply_transform.
    change (cut ":" ("filter:" ++ col ++ "," ++ op ++ "," ++ value))
      with ("filter", Some (col ++ "," ++ op ++ "," ++ value)).
    change (lower (strip "filter")) with "filter".
    cbn [String.eqb Ascii.eqb Bool.eqb andb].
    unfold split_max.
    change (col ++ "," ++ op ++ "," ++ value)
      with (col ++ String "," (op ++ String "," value)).
    rewrite (cut_app "," col _ Hc), (cut_app "," op _ Ho). reflexivity.
  - unfold run_stage, apply_transform.
    change (cut ":" ("addcol:" ++ name ++ "=" ++ expression))
      with ("addcol", Some (name ++ "=" ++ expression)).
    change (lower (strip "addcol")) with "addcol".
    cbn [String.eqb Ascii.eqb Bool.eqb andb].
    change (name ++ "=" ++ expression) with (name ++ String "=" expression).
    rewrite (cut_app "=" name _ Hn).
    assert (He : has_char "=" (name ++ String "=" expression) = true).
    { rewrite has_char_app. unfold has_char at 2. simpl. apply orb_true_r. }
    rewrite He. reflexivity.
Qed.

(** X25.  A sort stage on a column in which one record holds a number
    and another a string changes nothing: the [TypeError] of the sort is
    caught and the Dataset goes on as it was. *)
Theorem sort_stage_on_mixed_column_keeps_data
    (data : Dataset) (trans_str action_text params_str : string)
    (keys : list (string * string)) (col dir : string) (r1 r2 : Record) :
  cut ":" trans_str = (action_text, Some params_str) ->
  lower (strip action_text) = "sort" ->
  parse_sort (split "," params_str) = Ok keys ->
  In (col, dir) keys ->
  In r1 data -> In r2 data ->
  is_numeric (row_get col r1) = true ->
  is_str (row_get col r2) = true ->
  run_stage data trans_str = data.
Proof.
  intros Hcut Hact Hparse Hk H1 H2 N1 T2.
  unfold run_stage, apply_transform. rewrite Hcut, Hact, Hparse.
  cbn [String.eqb Ascii.eqb Bool.eqb andb bind].
  destruct (transform_sort_data data keys) as [out | e] eqn:E; [| reflexivity].
  exfalso. unfold transform_sort_data in E.
  destruct data as [| r data]; [contradiction |].
  destruct keys as [| k ks]; [contradiction |].
  apply (sort_passes_no_mixed _ _ _ col dir r1 r2 E); try assumption.
  apply in_rev in Hk. exact Hk.
Qed.

End MoreStages.

(** * Worked inputs *)

#[local] Existing Instance binary64_text.

(** ** Coercion *)

Example coercion_examples :
  _try_convert_type (VStr "42") = VInt 42 /\
  _try_convert_type (VStr "3.14") = VFloat (S754_finite false 7070651414971679 (-51)) /\
  _try_convert_type (VStr "abc") = VStr "abc" /\
  _try_convert_type (VInt 7) = VInt 7 /\
  _try_convert_type VNull = VNull.
Proof. repeat split; vm_compute; reflexivity. Qed.

(** ** Sort *)

(** C1 fails as stated: in an ascending sort the record that misses the
    column comes out last, after the records that have a value. *)
Lemma sort_asc_missing_not_first :
  missing "dept" emp_no_dept /\
  has_value "dept" emp_ops /\
  transform_sort_data [emp_no_dept; emp_ops] [("dept", "asc")] =
    Ok [emp_ops; emp_no_dept] /\
  ~ all_before (missing "dept") (has_value "dept") [emp_ops; emp_no_dept].
Proof.
  assert (Hm : missing "dept" emp_no_dept) by reflexivity.
  assert (Hv : has_value "dept" emp_ops)
    by (exists (VInt 2); split; [reflexivity | discriminate]).
  repeat split; try assumption.
  intros H. specialize (H 1%nat 0%nat emp_no_dept emp_ops eq_refl eq_refl Hm Hv).
  inversion H.
Qed.

Lemma sort_groups_absent_by_direction_witness :
  all_before (has_value "dept") (absent "dept") [emp_ops; emp_sales; emp_sales_b; emp_no_dept] /\
  all_before (absent "dept") (has_value "dept") [emp_no_dept; emp_sales; emp_sales_b; emp_ops].
Proof.
  split.
  - exact (sort_groups_absent_by_direction staff "dept" "asc" []
             [emp_ops; emp_sales; emp_sales_b; emp_no_dept] eq_refl).
  - exact (sort_groups_absent_by_direction staff "dept" "DESC" []
             [emp_no_dept; emp_sales; emp_sales_b; emp_ops] eq_refl).
Defined.


Example sort_examples :
  transform_sort_data staff [("dept", "asc")] =
    Ok [emp_ops; emp_sales; emp_sales_b; emp_no_dept] /\
  transform_sort_data staff [("dept", "desc")] =
    Ok [emp_no_dept; emp_sales; emp_sales_b; emp_ops] /\
  transform_sort_data staff [("dept", "desc"); ("id", "desc")] =
    Ok [emp_no_dept; emp_sales_b; emp_sales; emp_ops] /\
  transform_sort_data [named; emp_no_dept; [("Name", VInt 1)]] [("Name", "asc")] =
    Raise TypeError.
Proof. repeat split. Qed.

(** ** Filter *)

(** C2 fails as stated for [!=]: a String field against a numeric literal
    is kept. *)
Lemma filter_ne_keeps_incompatible :
  dict_get "Name" named = Some (VStr "abc") /\
  _try_convert_type (VStr "5") = VInt 5 /\
  comparable_kinds (VStr "abc") (VInt 5) = false /\
  transform_filter_rows [named] "Name" "!=" "5" = [named] /\
  In named (transform_filter_rows [named] "Name" "!=" "5").
Proof. repeat split. left; reflexivity. Qed.

Lemma filter_incompatible_kinds_witness :
  ~ In named (transform_filter_rows [named] "Name" ">" "5") /\
  ~ In named (transform_filter_rows [named] "Name" "==" "5") /\
  In named (transform_filter_rows [named] "Name" "!=" "5").
Proof.
  assert (H : forall op,
             (In op [">"; "<"; ">="; "<="; "=="] ->
                ~ In named (transform_filter_rows [named] "Name" op "5")) /\
             (op = "!=" -> In named [named] ->
                In named (transform_filter_rows [named] "Name" op "5"))).
  { intros op.
    apply (filter_incompatible_kinds [named] "Name" op "5" named (VStr "abc"));
      reflexivity. }
  split; [| split].
  - apply (H ">"). simpl. tauto.
  - apply (H "=="). simpl. tauto.
  - apply (H "!="); [reflexivity | left; reflexivity].
Defined.

(** ** Rename *)

(** C3 fails as stated: the renamed field leaves slot 0 and ends in
    slot 1, after the field that followed it. *)
Lemma rename_changes_slot :
  transform_rename_columns [ab_row] [("A", "C")] = [[("B", VInt 2); ("C", VInt 1)]] /\
  dict_index "A" ab_row = Some 0%nat /\
  dict_index "C" [("B", VInt 2); ("C", VInt 1)] = Some 1%nat /\
  transform_rename_columns [ab_row] [("A", "C")] <> [[("C", VInt 1); ("B", VInt 2)]].
Proof. repeat split. discriminate. Qed.

Lemma rename_moves_field_witness :
  exists r',
    nth_error (transform_rename_columns [ab_row] [("A", "C")]) 0 = Some r' /\
    dict_get "C" r' = Some (VInt 1) /\
    (dict_get "C" (dict_remove "A" ab_row) = None ->
       r' = (dict_remove "A" ab_row ++ [("C", VInt 1)])%list) /\
    (forall k, dict_index "C" (dict_remove "A" ab_row) = Some k ->
       dict_index "C" r' = Some k).
Proof.
  apply (rename_moves_field [ab_row] "A" "C" 0 ab_row (VInt 1)); reflexivity.
Defined.

(** ** AddOrModifyColumn *)



Example concat_example :
  transform_add_modify_column [ann_lee] "Full" "FirstName+LastName" =
  [[("FirstName", VStr "Ann"); ("LastName", VStr "Lee"); ("Full", VStr "AnnLee")]].
Proof. reflexivity. Qed.

(** C5 fails as stated: a quoted literal whose content holds [*] is taken
    by the multiplication rule and gives Null; one whose content holds [+]
    is taken by the concatenation rule and keeps its quotes. *)
Lemma quoted_star_is_null :
  transform_add_modify_column [ab_row] "S" (quoted dquote "a*b") =
    [[("A", VInt 1); ("B", VInt 2); ("S", VNull)]] /\
  transform_add_modify_column [ab_row] "S" (quoted dquote "a*b") <>
    [[("A", VInt 1); ("B", VInt 2); ("S", VStr "a*b")]] /\
  transform_add_modify_column [ab_row] "S" (quoted dquote "a+b") =
    [[("A", VInt 1); ("B", VInt 2); ("S", VStr (quoted dquote "ab"))]] /\
  transform_add_modify_column [ab_row] "S" (quoted dquote "a+b") <>
    [[("A", VInt 1); ("B", VInt 2); ("S", VStr "a+b")]].
Proof. repeat split; discriminate. Qed.

Lemma quoted_literal_result_witness :
  nth_error (transform_add_modify_column [ab_row] "S" (quoted dquote "Active")) 0 =
    Some (dict_set "S" (VStr "Active") ab_row) /\
  nth_error (transform_add_modify_column [ab_row] "S" (quoted squote "On hold")) 0 =
    Some (dict_set "S" (VStr "On hold") ab_row).
Proof.
  split.
  - apply (quoted_literal_result [ab_row] "S" dquote "Active" 0 ab_row);
      [reflexivity | left; reflexivity | reflexivity | reflexivity].
  - apply (quoted_literal_result [ab_row] "S" squote "On hold" 0 ab_row);
      [reflexivity | right; reflexivity | reflexivity | reflexivity].
Defined.

(** C7 fails as stated: the field holds the String [30], which is not a
    numeric Value, and the new field is the Integer 31, not Null. *)
Lemma add_coerces_string_field :
  dict_get "Age" age_text = Some (VStr "30") /\
  is_numeric (VStr "30") = false /\
  transform_add_modify_column [age_text] "Next" "Age+1" =
    [[("Age", VStr "30"); ("Next", VInt 31)]] /\
  transform_add_modify_column [age_text] "Next" "Age+1" <>
    [[("Age", VStr "30"); ("Next", VNull)]].
Proof. repeat split. discriminate. Qed.

Lemma arithmetic_expression_result_witness :
  exists op left right new_value,
    op = OpAdd /\
    cut (op_symbol op) "Age+1" = (left, Some right) /\
    nth_error (transform_add_modify_column [age_int] "Next" "Age+1") 0 =
      Some (dict_set "Next" new_value age_int) /\
    match dict_get (strip left) age_int with
    | None => new_value = VNull
    | Some v =>
        match _try_convert_type v, _try_convert_type (VStr (strip right)) with
        | VInt a, VInt b => new_value = VInt (int_op op a b)
        | VInt a, VFloat g =>
            new_value = match int_to_float a with
                        | Ok f => VFloat (float_op op f g)
                        | Raise _ => VNull
                        end
        | VFloat f, VInt b =>
            new_value = match int_to_float b with
                        | Ok g => VFloat (float_op op f g)
                        | Raise _ => VNull
                        end
        | VFloat f, VFloat g => new_value = VFloat (float_op op f g)
        | _, _ => new_value = VNull
        end
    end.
Proof.
  apply (arithmetic_expression_result [age_int] "Next" "Age+1" 0 age_int);
    reflexivity.
Defined.

Example arithmetic_examples :
  transform_add_modify_column [age_int] "Next" "Age+1" =
    [[("Age", VInt 30); ("Next", VInt 31)]] /\
  transform_add_modify_column [[("Salary", VInt 1000)]] "Bonus" "Salary*0.1" =
    [[("Salary", VInt 1000); ("Bonus", VFloat (S754_finite false 7036874417766400 (-46)))]] /\
  str_of_float (S754_finite false 7036874417766400 (-46)) = "100.0" /\
  transform_add_modify_column [[("N", VInt (10 ^ 400))]] "Half" "N*0.5" =
    [[("N", VInt (10 ^ 400)); ("Half", VNull)]].
Proof. repeat split; vm_compute; reflexivity. Qed.

(** ** The stage loop *)

Lemma malformed_stage_is_skipped_witness :
  run_stage staff "sort:dept" = staff /\
  run_stage staff "filter:dept,>" = staff /\
  run_stage staff "addcol:x" = staff /\
  run_stage staff "rename:dept" = staff /\
  run_stage staff "nocolon" = staff.
Proof.
  split; [| split; [| split; [| split]]].
  - apply (malformed_stage_is_skipped "sort:dept"); reflexivity.
  - apply (malformed_stage_is_skipped "filter:dept,>"); reflexivity.
  - apply (malformed_stage_is_skipped "addcol:x"); reflexivity.
  - apply (malformed_stage_is_skipped "rename:dept"); reflexivity.
  - apply (malformed_stage_is_skipped "nocolon"); reflexivity.
Defined.

(** ** Further worked inputs *)

Ltac nodup_strings :=
  repeat (constructor; [simpl; intuition discriminate |]); constructor.

Lemma try_convert_type_keeps_only_non_numeric_text_witness :
  VStr "abc" = VStr "abc" /\ int_of_str "abc" = None /\ float_of_str "abc" = None.
Proof.
  apply (try_convert_type_keeps_only_non_numeric_text (VStr "abc") "abc").
  reflexivity.
Defined.

Lemma preprocess_converts_each_value_witness :
  _preprocess_data_types [raw_row] = [[("id", VInt 7); ("name", VStr "x")]].
Proof.
  rewrite (preprocess_converts_each_value [raw_row]).
  - reflexivity.
  - constructor; [| constructor]. unfold wf_record. simpl. nodup_strings.
Defined.


Lemma select_row_order_witness :
  map fst (select_row ["B"; "Z"; "A"] ab_row) = ["B"; "A"].
Proof.
  rewrite (select_row_order ["B"; "Z"; "A"] ab_row).
  - reflexivity.
  - nodup_strings.
Defined.

Lemma select_keeps_rows_with_a_column_witness :
  transform_select_columns staff ["dept"] =
  [[("dept", VInt 5)]; [("dept", VInt 2)]; [("dept", VInt 5)]].
Proof.
  rewrite (select_keeps_rows_with_a_column staff ["dept"]).
  - reflexivity.
  - discriminate.
Defined.

Lemma filter_unknown_operator_matches_nothing_witness :
  transform_filter_rows staff "dept" "=>" "2" = [].
Proof.
  apply (filter_unknown_operator_matches_nothing staff "dept" "=>" "2").
  unfold known_operators. simpl. intuition discriminate.
Defined.

Lemma filter_compares_integers_witness :
  In emp_sales (transform_filter_rows staff "dept" ">" "3") <->
  In emp_sales staff /\ int_rel ">" 5 3 = true.
Proof.
  apply (filter_compares_integers staff "dept" ">" "3" emp_sales 5 3).
  - reflexivity.
  - reflexivity.
  - left. reflexivity.
Defined.

Lemma filter_text_operators_witness :
  (In named (transform_filter_rows [named] "Name" "contains" "b") <->
   In named [named] /\ exists a b, "abc" = a ++ "b" ++ b) /\
  (In named (transform_filter_rows [named] "Name" "startswith" "b") <->
   In named [named] /\ exists b, "abc" = "b" ++ b) /\
  (In named (transform_filter_rows [named] "Name" "endswith" "b") <->
   In named [named] /\ exists a, "abc" = a ++ "b").
Proof.
  apply (filter_text_operators [named] "Name" "b" named "abc"); reflexivity.
Defined.

Lemma filter_numeric_literal_matches_no_text_witness :
  transform_filter_rows [[("Code", VStr "123")]] "Code" "contains" "12" = [].
Proof.
  apply (filter_numeric_literal_matches_no_text [[("Code", VStr "123")]] "Code" "contains" "12").
  - reflexivity.
  - left. reflexivity.
Defined.

Lemma rename_lookup_witness :
  exists r',
    nth_error (transform_rename_columns [ab_row] [("A", "B")]) 0 = Some r' /\
    forall k,
      dict_get k r' =
      if String.eqb k "B" then Some (VInt 1)
      else if String.eqb k "A" then None
      else dict_get k ab_row.
Proof.
  apply (rename_lookup [ab_row] "A" "B" 0 ab_row (VInt 1)).
  - reflexivity.
  - unfold wf_record. simpl. nodup_strings.
  - reflexivity.
Defined.

Lemma rename_keeps_other_fields_witness :
  List.length (transform_rename_columns [ab_row] [("A", "C")]) = List.length [ab_row] /\
  forall i r, nth_error [ab_row] i = Some r ->
    exists r',
      nth_error (transform_rename_columns [ab_row] [("A", "C")]) i = Some r' /\
      dict_get "B" r' = dict_get "B" r.
Proof.
  apply (rename_keeps_other_fields [ab_row] [("A", "C")] "B").
  intros o n [E | []]. injection E as <- <-. split; discriminate.
Defined.

Lemma rename_missing_names_is_noop_witness :
  transform_rename_columns [ab_row] [("X", "Y")] = [ab_row].
Proof.
  apply (rename_missing_names_is_noop [ab_row] [("X", "Y")]).
  intros r o n [<- | []] [E | []]. injection E as <- <-. reflexivity.
Defined.

Lemma rename_there_and_back_witness :
  exists r',
    nth_error (transform_rename_columns [ab_row] [("A", "C"); ("C", "A")]) 0 = Some r' /\
    (forall k, dict_get k r' = dict_get k ab_row) /\
    r' = (dict_remove "A" ab_row ++ [("A", VInt 1)])%list.
Proof.
  apply (rename_there_and_back [ab_row] "A" "C" 0 ab_row (VInt 1)).
  - reflexivity.
  - unfold wf_record. simpl. nodup_strings.
  - reflexivity.
  - reflexivity.
Defined.

Lemma sort_returns_on_comparable_columns_witness :
  exists out, transform_sort_data staff [("dept", "desc"); ("id", "asc")] = Ok out.
Proof.
  apply (sort_returns_on_comparable_columns staff [("dept", "desc"); ("id", "asc")]).
  intros k r1 r2 Hk H1 H2. simpl in Hk, H1, H2.
  destruct Hk as [<- | [<- | []]];
    destruct H1 as [<- | [<- | [<- | [<- | []]]]];
    destruct H2 as [<- | [<- | [<- | [<- | []]]]];
    vm_compute; tauto.
Defined.

Lemma sort_mixed_kinds_raises_witness :
  transform_sort_data mixed_v [("v", "asc")] = Raise TypeError.
Proof.
  apply (sort_mixed_kinds_raises mixed_v [("v", "asc")] "v" "asc"
           [("v", VInt 1)] [("v", VStr "x")]).
  - left. reflexivity.
  - left. reflexivity.
  - right. left. reflexivity.
  - reflexivity.
  - reflexivity.
Defined.

Lemma add_modify_bare_literal_witness :
  transform_add_modify_column [ab_row] "N" "5" =
  map (dict_set "N" (_try_convert_type (VStr "5"))) [ab_row].
Proof.
  apply (add_modify_bare_literal [ab_row] "N" "5"); reflexivity.
Defined.

Lemma pipeline_keeps_field_names_unique_witness :
  Forall wf_record (run_pipeline [ab_row] ["rename:A:B"; "addcol:B=7"; "select:B"]).
Proof.
  apply (pipeline_keeps_field_names_unique [ab_row]).
  constructor; [| constructor]. unfold wf_record. simpl. nodup_strings.
Defined.

Lemma stage_reads_filter_and_addcol_witness :
  run_stage [named] ("filter:" ++ "Name" ++ "," ++ "==" ++ "," ++ "a,b") =
    transform_filter_rows [named] (strip "Name") (strip "==") (strip "a,b") /\
  run_stage [named] ("addcol:" ++ "Rule" ++ "=" ++ "x=y") =
    transform_add_modify_column [named] (strip "Rule") (strip "x=y").
Proof.
  apply (stage_reads_filter_and_addcol [named] "Name" "==" "a,b" "Rule" "x=y");
    reflexivity.
Defined.

Lemma sort_stage_on_mixed_column_keeps_data_witness :
  run_stage mixed_v "sort:v:asc" = mixed_v.
Proof.
  apply (sort_stage_on_mixed_column_keeps_data mixed_v "sort:v:asc" "sort" "v:asc"
           [("v", "asc")] "v" "asc" [("v", VInt 1)] [("v", VStr "x")]).
  - reflexivity.
  - reflexivity.
  - reflexivity.
  - left. reflexivity.
  - left. reflexivity.
  - right. left. reflexivity.
  - reflexivity.
  - reflexivity.
Defined.
